(** * ALCARECO size estimation: a shallow embedding of
      [ALCARECO_estimation_overall_Run3_withMonitor_slim.py]

    The script asks the data catalogue (through the [dasgoclient]
    executable) for the datasets matching a list of patterns, fetches the size
    and the number of events of each dataset, folds them into totals per group
    and per year, and prints a report.

    Modelling choices, from the source:
    - Python objects decoded from JSON are the inductive [value]; a [dict] is
      kept as the sequence of pairs [json.loads] read, with Python's
      dictionary semantics on top (the last binding of a key wins, a key is
      iterated once, at its first position);
    - a [str] is represented by its UTF-8 encoding, [bytes] by [list byte];
      [bytes.decode()] is the strict UTF-8 decoder;
    - exceptions are the type [exn]; a computation is a pair of the lines it
      printed on standard output and either a value or a raised exception
      ([M]); loops with an early [return] are recursive functions over the
      iterated sequence;
    - what lies outside the repository is a field of [World]: the process
      spawned by [subprocess.run], the parser [json.loads], and the texts
      Python produces for [str(e)] and for [format] of a non-string object.
      The catalogue is held fixed during a run: the client's answer is a
      function of its argument vector;
    - integers are exact ([Z]). The divisions and the formats of the report
      are those of binary64 ([spec_float] with 53 bits and exponents up to
      1024, rounding to nearest even), with the [OverflowError] of an [int]
      too large for a [float]. The sums of the fold keep a [float] as the
      exact rational sum: their rounding is outside the model, and the
      statements on sums are about the integers of the data model;
    - [defaultdict(int)] is a [gmap] read with default [0];
    - [tqdm] only draws a progress bar on standard error: it is the identity
      on the sequence it wraps. *)

From Stdlib Require Import ZArith QArith List String Ascii DecimalString.
From Stdlib Require Import Floats.SpecFloat.
From Stdlib Require Import Strings.Byte.
From stdpp Require Import base option gmap strings.
Import ListNotations.

Local Open Scope Z_scope.
Local Open Scope string_scope.
Local Open Scope list_scope.

(** ** Python objects *)

#[warnings="-register-all"]
Inductive value : Type :=
  | VNone
  | VBool (b : bool)
  | VInt (z : Z)
  | VFloat (q : Q)
  | VStr (s : string)
  | VList (l : list value)
  | VDict (kvs : list (string * value)).

(** The result of [subprocess.run(..., stdout=PIPE, stderr=PIPE)]. *)
Record CompletedProcess := {
  returncode : Z;
  stdout : list byte;
  stderr : list byte
}.

Inductive exn : Type :=
  | CalledProcessError (cp : CompletedProcess)
  | OSError
  | UnicodeDecodeError
  | JSONDecodeError
  | KeyError (key : string)
  | IndexError
  | TypeError
  | ZeroDivisionError
  | OverflowError.

Inductive result (A : Type) : Type :=
  | Ok (a : A)
  | Raise (e : exn).
Arguments Ok {A} a.
Arguments Raise {A} e.

(** ** The monad of computations: printed lines and an outcome *)

Definition M (A : Type) : Type := (list string * result A)%type.

Definition printed {A} (m : M A) : list string := fst m.
Definition outcome {A} (m : M A) : result A := snd m.

#[global] Instance result_ret : MRet result := fun A a => Ok a.
#[global] Instance result_bind : MBind result := fun A B f m =>
  match m with
  | Ok a => f a
  | Raise e => Raise e
  end.

#[global] Instance M_ret : MRet M := fun A a => ([], Ok a).
#[global] Instance M_bind : MBind M := fun A B f m =>
  match m with
  | (out, Ok a) => let '(out', r) := f a in (out ++ out', r)
  | (out, Raise e) => (out, Raise e)
  end.

Definition raise {A} (e : exn) : M A := ([], Raise e).
Definition print (line : string) : M unit := ([line], Ok tt).
Definition lift {A} (r : result A) : M A := ([], r).

(** [try: body except classes: handler]. *)
Definition try_except {A} (body : M A) (classes : exn -> bool)
    (handler : exn -> M A) : M A :=
  match body with
  | (out, Raise e) =>
      if classes e then let '(out', r) := handler e in (out ++ out', r)
      else (out, Raise e)
  | done => done
  end.

(** ** Strings *)

(** [needle in hay] on two [str]. *)
Fixpoint contains (needle hay : string) : bool :=
  String.prefix needle hay ||
  match hay with
  | EmptyString => false
  | String _ hay' => contains needle hay'
  end.

(** A byte [10xxxxxx] continues a UTF-8 sequence. *)
Definition is_continuation (c : ascii) : bool :=
  let n := N_of_ascii c in (128 <=? n)%N && (n <? 192)%N.

(** The characters of a [str], each as a [str]: the encoding is cut before
    every byte that starts a sequence. *)
Fixpoint chars_aux (cur : string) (s : string) : list string :=
  match s with
  | EmptyString => [cur]
  | String c s' =>
      if is_continuation c then chars_aux (cur ++ String c EmptyString) s'
      else cur :: chars_aux (String c EmptyString) s'
  end.

Definition chars (s : string) : list string :=
  match s with
  | EmptyString => []
  | String c s' => chars_aux (String c EmptyString) s'
  end.

(** Well-formed UTF-8 byte sequences (strict: no overlong form, no surrogate,
    nothing above U+10FFFF), as [bytes.decode('utf-8')] accepts them. *)
Definition in_range (lo hi b : N) : bool := ((lo <=? b) && (b <=? hi))%N.

Fixpoint utf8_valid (bs : list N) : bool :=
  match bs with
  | [] => true
  | b1 :: r1 =>
      if (b1 <? 128)%N then utf8_valid r1
      else match r1 with
      | [] => false
      | b2 :: r2 =>
          if in_range 194 223 b1 then in_range 128 191 b2 && utf8_valid r2
          else match r2 with
          | [] => false
          | b3 :: r3 =>
              if in_range 224 239 b1 then
                in_range (if (b1 =? 224)%N then 160 else 128)
                         (if (b1 =? 237)%N then 159 else 191) b2
                && in_range 128 191 b3 && utf8_valid r3
              else match r3 with
              | [] => false
              | b4 :: r4 =>
                  in_range 240 244 b1
                  && in_range (if (b1 =? 240)%N then 144 else 128)
                              (if (b1 =? 244)%N then 143 else 191) b2
                  && in_range 128 191 b3 && in_range 128 191 b4
                  && utf8_valid r4
              end
          end
      end
  end.

(** [b.decode('utf-8')]: the text, or [UnicodeDecodeError]. *)
Definition decode (b : list byte) : result string :=
  if utf8_valid (map Byte.to_N b) then Ok (string_of_list_byte b)
  else Raise UnicodeDecodeError.

(** ** Python's operations on decoded objects *)

(** [dict[k]]: the last binding read for [k]. *)
Fixpoint dict_get (k : string) (kvs : list (string * value)) : option value :=
  match kvs with
  | [] => None
  | (k', v) :: rest =>
      match dict_get k rest with
      | Some v' => Some v'
      | None => if String.eqb k k' then Some v else None
      end
  end.

(** The keys of a [dict] in insertion order, each once. *)
Fixpoint dict_keys_aux (seen : list string) (kvs : list (string * value))
    : list string :=
  match kvs with
  | [] => []
  | (k, _) :: rest =>
      if existsb (String.eqb k) seen then dict_keys_aux seen rest
      else k :: dict_keys_aux (k :: seen) rest
  end.

Definition dict_keys (kvs : list (string * value)) : list string :=
  dict_keys_aux [] kvs.

(** [bool(v)], as [not data] reads it. *)
Definition truthy (v : value) : bool :=
  match v with
  | VNone => false
  | VBool b => b
  | VInt z => negb (z =? 0)%Z
  | VFloat q => negb (Qeq_bool q 0)
  | VStr s => negb (String.eqb s "")
  | VList l => match l with [] => false | _ => true end
  | VDict kvs => match kvs with [] => false | _ => true end
  end.

(** [for x in v]: the sequence iterated, or [TypeError] when [v] is not
    iterable. *)
Definition py_iter (v : value) : result (list value) :=
  match v with
  | VList l => Ok l
  | VDict kvs => Ok (map VStr (dict_keys kvs))
  | VStr s => Ok (map VStr (chars s))
  | _ => Raise TypeError
  end.

(** [v[k]] for a [str] key [k]. *)
Definition py_getitem (v : value) (k : string) : result value :=
  match v with
  | VDict kvs =>
      match dict_get k kvs with
      | Some x => Ok x
      | None => Raise (KeyError k)
      end
  | _ => Raise TypeError
  end.

Definition is_str (k : string) (v : value) : bool :=
  match v with
  | VStr s => String.eqb k s
  | _ => false
  end.

(** [k in v] for a [str] [k]: key of a [dict], substring of a [str], element
    of a [list]. *)
Definition py_contains (k : string) (v : value) : result bool :=
  match v with
  | VDict kvs => Ok (match dict_get k kvs with Some _ => true | None => false end)
  | VStr s => Ok (contains k s)
  | VList l => Ok (existsb (is_str k) l)
  | _ => Raise TypeError
  end.

(** ** Numbers *)

(** The numbers the totals hold: an [int], or a [float] once a [float] has
    been added or a true division taken. *)
Inductive number : Type :=
  | Int (z : Z)
  | Float (q : Q).

Definition to_Q (n : number) : Q :=
  match n with
  | Int z => inject_Z z
  | Float q => q
  end.

Definition num_add (a b : number) : number :=
  match a, b with
  | Int x, Int y => Int (x + y)
  | _, _ => Float (Qred (to_Q a + to_Q b))
  end.

(** [a + v] for a number [a]: [bool] is a subclass of [int]; a [str], a
    [list], a [dict] or [None] cannot be added to a number. *)
Definition py_add (a : number) (v : value) : result number :=
  match v with
  | VInt z => Ok (num_add a (Int z))
  | VBool b => Ok (num_add a (Int (Z.b2z b)))
  | VFloat q => Ok (num_add a (Float q))
  | _ => Raise TypeError
  end.

(** [n > 0]. *)
Definition num_pos (n : number) : bool :=
  match n with
  | Int z => (0 <? z)%Z
  | Float q => negb (Qle_bool q 0)
  end.

(** ** binary64 *)

Definition float_prec : Z := 53.
Definition float_emax : Z := 1024.

(** An integer as an unrounded operand of a division. *)
Definition exact_int (z : Z) : spec_float :=
  match z with
  | Z0 => S754_zero false
  | Zpos p => S754_finite false p 0
  | Zneg p => S754_finite true p 0
  end.

(** [float(z)]: the nearest [float], or [OverflowError] when [z] is beyond
    the range. *)
Definition float_of_int (z : Z) : result spec_float :=
  match binary_normalize float_prec float_emax z 0 false with
  | S754_infinity _ => Raise OverflowError
  | f => Ok f
  end.

(** [a / b] on two [int]: the quotient rounded once; [ZeroDivisionError] on
    [b = 0], [OverflowError] when the result is beyond the range. *)
Definition int_truediv (a b : Z) : result spec_float :=
  if (b =? 0)%Z then Raise ZeroDivisionError
  else
    match SFdiv float_prec float_emax (exact_int a) (exact_int b) with
    | S754_infinity _ => Raise OverflowError
    | f => Ok f
    end.

(** The operands of the report: an [int] or a [float]. *)
Inductive scalar : Type :=
  | SInt (z : Z)
  | SFloat (f : spec_float).

(** A total of the aggregate as the report reads it. A [float] total, kept
    as the exact sum, is read as the nearest [float]. *)
Definition to_scalar (n : number) : scalar :=
  match n with
  | Int z => SInt z
  | Float q =>
      SFloat (SFdiv float_prec float_emax (exact_int (Qnum q))
                (exact_int (Zpos (Qden q))))
  end.

Definition to_float (x : scalar) : result spec_float :=
  match x with
  | SInt z => float_of_int z
  | SFloat f => Ok f
  end.

Definition is_zero (x : scalar) : bool :=
  match x with
  | SInt z => (z =? 0)%Z
  | SFloat (S754_zero _) => true
  | SFloat _ => false
  end.

(** [a / b]. Two [int] are divided exactly and rounded once. Otherwise both
    operands are converted to [float] first, which raises [OverflowError] for
    an [int] beyond the range, and then the divisor is tested: an [int]
    converts to [0.0] only when it is [0], so the test is made on the
    operand. The quotient of two [float] is that of IEEE 754 (it can be
    infinite or NaN and does not raise). *)
Definition truediv (a b : scalar) : result spec_float :=
  match a, b with
  | SInt x, SInt y => int_truediv x y
  | _, _ =>
      fa ← to_float a;
      fb ← to_float b;
      if is_zero b then Raise ZeroDivisionError
      else Ok (SFdiv float_prec float_emax fa fb)
  end.

(** ** Formatting *)

Definition newline : string := String (ascii_of_nat 10) EmptyString.

(** [f"{z}"] for an [int]. *)
Definition format_int (z : Z) : string := NilZero.string_of_int (Z.to_int z).

Fixpoint zeros (n : nat) : string :=
  match n with
  | O => ""
  | S n' => String "0" (zeros n')
  end.

Definition pad_left (width : nat) (s : string) : string :=
  zeros (width - String.length s) ++ s.

(** [n / d] rounded to the nearest integer, ties to even ([0 <= n], [0 < d]). *)
Definition round_half_even (n d : Z) : Z :=
  let q := (n / d)%Z in
  match (2 * (n mod d) ?= d)%Z with
  | Lt => q
  | Gt => (q + 1)%Z
  | Eq => if Z.even q then q else (q + 1)%Z
  end.

(** The decimal writing of [|num| / den] with [places] digits after the
    point, rounded to nearest, ties to even. *)
Definition format_decimal (places : nat) (negative : bool) (num : Z)
    (den : positive) : string :=
  let scale := (10 ^ Z.of_nat places)%Z in
  let n := round_half_even (Z.abs num * scale) (Zpos den) in
  (if negative then "-" else "")
  ++ format_int (n / scale)
  ++ match places with
     | O => ""
     | _ => "." ++ pad_left places (format_int (n mod scale))
     end.

(** [f"{x:.<places>f}"] for a [float]: the exact value of the float is
    written. *)
Definition format_float (places : nat) (f : spec_float) : string :=
  match f with
  | S754_nan => "nan"
  | S754_infinity s => if s then "-inf" else "inf"
  | S754_zero s => format_decimal places s 0 1
  | S754_finite s m e =>
      match e with
      | Zneg k => format_decimal places s (Zpos m) (2 ^ k)%positive
      | _ => format_decimal places s (Zpos m * 2 ^ e) 1
      end
  end.

(** [f"{x:.<places>f}"]: an [int] is converted to [float] first. *)
Definition format_fixed (places : nat) (x : scalar) : result string :=
  f ← to_float x;
  Ok (format_float places f).

(** ** The aggregate of one group *)

Record results := {
  total_datasets : Z;
  total_size : number;
  total_events : number;
  size_by_year : gmap string number;
  count_by_year : gmap string Z
}.

Definition new_results : results :=
  {| total_datasets := 0; total_size := Int 0; total_events := Int 0;
     size_by_year := ∅; count_by_year := ∅ |}.

(** [for x in l: s = body(s, x)], stopping at the first exception. *)
Fixpoint for_each {A S : Type} (body : S -> A -> M S) (l : list A) (s : S)
    : M S :=
  match l with
  | [] => mret s
  | x :: l' => s' ← body s x; for_each body l' s'
  end.

Definition tqdm {A : Type} (iterable : list A) (desc : string) : list A :=
  iterable.

(** ** What lies outside the repository *)

Record World := {
  (** the process spawned for an argument vector, before [check=True] is
      applied: it completes with an exit status and two captured streams, or
      cannot be started *)
  subprocess_run : list string -> result CompletedProcess;
  (** [json.loads]: the decoded object, or [None] for [JSONDecodeError]; the
      parser's other failures ([RecursionError] for a document nested too
      deep) are outside the model, and no statement lists the exceptions of
      [get_das_data] exhaustively *)
  json_loads : string -> option value;
  (** [str(e)] *)
  exn_str : exn -> string;
  (** [format(v)] of an object that is not a [str] *)
  py_repr : value -> string
}.

(** [f"{v}"]. *)
Definition format_value (w : World) (v : value) : string :=
  match v with
  | VStr s => s
  | _ => py_repr w v
  end.

(** The argument vector of the client. *)
Definition dasgoclient_args (query : string) : list string :=
  ["dasgoclient"; "--query"; query; "--json"].

Section Script.

Variable w : World.

(** ** [get_das_data] *)

Definition get_das_data (query : string) : M value :=
  try_except
    (result ← lift (subprocess_run w (dasgoclient_args query));
     if negb (returncode result =? 0)%Z then raise (CalledProcessError result)
     else
       data ← lift (decode (stdout result));
       match json_loads w data with
       | Some v => mret v
       | None => raise JSONDecodeError
       end)
    (fun e => match e with CalledProcessError _ => true | _ => false end)
    (fun e =>
       match e with
       | CalledProcessError cp =>
           text ← lift (decode (stderr cp));
           _ ← print ("Error executing dasgoclient: " ++ text);
           mret VNone
       | _ => raise e
       end).

(** ** [get_datasets] *)

Definition dataset_query (name : string) : string :=
  "dataset dataset=" ++ name ++ " instance=prod/global".

Definition structural (e : exn) : bool :=
  match e with
  | KeyError _ | IndexError | TypeError => true
  | _ => false
  end.

(** [for ds_info in ...: datasets.append(ds_info['name'])]. *)
Fixpoint append_names (infos : list value) (datasets : list value)
    : result (list value) :=
  match infos with
  | [] => Ok datasets
  | ds_info :: rest =>
      name ← py_getitem ds_info "name";
      append_names rest (datasets ++ [name])
  end.

(** The body of [for entry in data]. *)
Definition append_entry (entry : value) (datasets : list value)
    : result (list value) :=
  ds ← py_getitem entry "dataset";
  infos ← py_iter ds;
  append_names infos datasets.

Fixpoint append_entries (entries : list value) (datasets : list value)
    : result (list value) :=
  match entries with
  | [] => Ok datasets
  | entry :: rest =>
      datasets' ← append_entry entry datasets;
      append_entries rest datasets'
  end.

Definition get_datasets (pattern : string) : M (list value) :=
  let query := dataset_query pattern in
  _ ← print ("Executing query: " ++ query);
  data ← get_das_data query;
  if negb (truthy data) then
    _ ← print ("No data found for pattern " ++ pattern);
    mret []
  else
    try_except
      (lift (entries ← py_iter data; append_entries entries []))
      structural
      (fun e => _ ← print ("Error processing data: " ++ exn_str w e); mret []).

(** ** [get_dataset_info] *)

(** [for ds_info in ...: if 'size' in ds_info and 'nevents' in ds_info:
    return ds_info['size'], ds_info['nevents']]. [Some] is the pair of an
    executed [return], [None] a loop that ran to its end. *)
Fixpoint scan_infos (infos : list value) : result (option (value * value)) :=
  match infos with
  | [] => Ok None
  | ds_info :: rest =>
      has_size ← py_contains "size" ds_info;
      has_both ← (if has_size : bool then py_contains "nevents" ds_info
                  else Ok false);
      if has_both : bool then
        dataset_size ← py_getitem ds_info "size";
        num_events ← py_getitem ds_info "nevents";
        Ok (Some (dataset_size, num_events))
      else scan_infos rest
  end.

Fixpoint scan_entries (entries : list value) : result (option (value * value)) :=
  match entries with
  | [] => Ok None
  | entry :: rest =>
      ds ← py_getitem entry "dataset";
      infos ← py_iter ds;
      found ← scan_infos infos;
      match found with
      | Some hit => Ok (Some hit)
      | None => scan_entries rest
      end
  end.

(** The function returns a pair, or, when the walk ends without a [return]
    and without an exception, Python's implicit [None]: [Some (a, b)] is the
    tuple [(a, b)], [None] is [None]. *)
Definition get_dataset_info (dataset : value) : M (option (value * value)) :=
  let query := dataset_query (format_value w dataset) in
  data ← get_das_data query;
  if negb (truthy data) then mret (Some (VNone, VNone))
  else
    try_except
      (lift (entries ← py_iter data; scan_entries entries))
      structural
      (fun e =>
         _ ← print ("Error processing data: " ++ exn_str w e);
         mret (Some (VNone, VNone))).

(** ** [process_datasets] *)

(** [year_map[year]] on a [defaultdict(int)]. *)
Definition dd_size (m : gmap string number) (year : string) : number :=
  default (Int 0) (m !! year).

Definition dd_count (m : gmap string Z) (year : string) : Z :=
  default 0%Z (m !! year).

(** [results['size_by_year'][year] += size;
     results['count_by_year'][year] += 1]. *)
Definition add_to_year (r : results) (year : string) (size : value)
    : result results :=
  s ← py_add (dd_size (size_by_year r) year) size;
  Ok {| total_datasets := total_datasets r;
        total_size := total_size r;
        total_events := total_events r;
        size_by_year := <[year := s]> (size_by_year r);
        count_by_year :=
          <[year := (dd_count (count_by_year r) year + 1)%Z]> (count_by_year r) |}.

(** The block under [if size is not None and events is not None]. *)
Definition count_dataset (r : results) (dataset size events : value)
    : result results :=
  let n := (total_datasets r + 1)%Z in
  ts ← py_add (total_size r) size;
  te ← py_add (total_events r) events;
  let r' := {| total_datasets := n; total_size := ts; total_events := te;
               size_by_year := size_by_year r;
               count_by_year := count_by_year r |} in
  in2022 ← py_contains "Run2022" dataset;
  if in2022 : bool then add_to_year r' "2022" size
  else
    in2023 ← py_contains "Run2023" dataset;
    if in2023 : bool then add_to_year r' "2023" size
    else
      in2024 ← py_contains "Run2024" dataset;
      if in2024 : bool then add_to_year r' "2024" size
      else Ok r'.

Definition is_none (v : value) : bool :=
  match v with
  | VNone => true
  | _ => false
  end.

(** The body of [for dataset in tqdm(datasets, ...)]. Unpacking
    [size, events = None] raises [TypeError]. *)
Definition process_dataset (r : results) (dataset : value) : M results :=
  info ← get_dataset_info dataset;
  match info with
  | None => raise TypeError
  | Some (size, events) =>
      if negb (is_none size) && negb (is_none events)
      then lift (count_dataset r dataset size events)
      else mret r
  end.

Definition process_pattern (group_name : string) (r : results)
    (pattern : string) : M results :=
  datasets ← get_datasets pattern;
  for_each process_dataset
    (tqdm datasets ("Processing datasets for " ++ group_name)) r.

Definition process_datasets (group_name : string) (patterns : list string)
    : M results :=
  for_each (process_pattern group_name) patterns new_results.

(** ** [main] *)

Definition group_patterns : list (string * list string) :=
  [ ("PPS", ["/*/Run202*PPSCalMaxTracks*PromptReco*/ALCA*"]);
    ("TkAl",
     [ "/*/Run202*-TkAlCosmics0T-PromptReco*/ALCARECO";
       "/*/Run202*-TkAlCosmicsInCollisions-PromptReco-v*/ALCARECO";
       "/*/Run202*-TkAlMinBias-PromptReco*/ALCARECO";
       "/*/Run202*-TkAlZMuMu-PromptReco*/ALCARECO";
       "/*/Run202*-TkAlMuonIsolated-PromptReco*/ALCARECO";
       "/*/Run202*-TkAlDiMuonAndVertex-PromptReco*/ALCARECO";
       "/*/Run202*-TkAlUpsilonMuMu-PromptReco*/ALCARECO";
       "/*/Run202*-TkAlJpsiMuMu-PromptReco*/ALCARECO";
       "/*/Run202*-TkAlJetHT-PromptReco*/ALCARECO";
       "/*/Run202*-TkAlV0s-PromptReco*/ALCARECO/" ]);
    ("BRIL",
     [ "/*/Run202*-AlCaPCCZeroBias-PromptReco*/ALCARECO";
       "/*/Run202*-AlCaPCCRandom-PromptReco*/ALCARECO" ]);
    ("ECAL",
     [ "/*/Run202*-EcalUncalWElectron-PromptReco*/ALCARECO";
       "/*/Run202*-EcalUncalZElectron-PromptReco*/ALCARECO" ]);
    ("Pixel",
     [ "/*/Run202*SiPixelCalSingleMuon*PromptReco*/ALCARECO";
       "/*/Run202*SiPixelCalSingleMuonTight*PromptReco*/ALCARECO" ]) ].

(** [1024**4]. *)
Definition bytes_per_tb : scalar := SInt (1024 ^ 4).

Definition total_size_tb (r : results) : result spec_float :=
  truediv (to_scalar (total_size r)) bytes_per_tb.

Definition average_size_per_dataset_tb (r : results) (size_tb : spec_float)
    : result scalar :=
  if (0 <? total_datasets r)%Z then
    average ← truediv (SFloat size_tb) (SInt (total_datasets r));
    Ok (SFloat average)
  else Ok (SInt 0).

Definition average_size_per_event_tb (r : results) (size_tb : spec_float)
    : result scalar :=
  if num_pos (total_events r) then
    average ← truediv (SFloat size_tb) (to_scalar (total_events r));
    Ok (SFloat average)
  else Ok (SInt 0).

Definition count_line (year : string) (count : Z) : string :=
  "Total number of datasets in " ++ year ++ ": " ++ format_int count.

Definition size_line (year : string) (size_tb : spec_float) : string :=
  "Total size of datasets in " ++ year ++ ": " ++ format_float 2 size_tb
  ++ " TB".

(** The body of [for year in ['2022', '2023', '2024']]. Reading a missing
    year of a [defaultdict] also stores the default under it; nothing reads
    the maps afterwards, so the stored key is not kept here. *)
Definition report_year (r : results) (_ : unit) (year : string) : M unit :=
  _ ← print (count_line year (dd_count (count_by_year r) year));
  size_tb ← lift (truediv (to_scalar (dd_size (size_by_year r) year))
                    bytes_per_tb);
  print (size_line year size_tb).

(** The body of [for group_name, results in group_results.items()]. *)
Definition report_group (_ : unit) (entry : string * results) : M unit :=
  let '(group_name, r) := entry in
  size_tb ← lift (total_size_tb r);
  per_dataset ← lift (average_size_per_dataset_tb r size_tb);
  per_event ← lift (average_size_per_event_tb r size_tb);
  _ ← print (newline ++ "Group: " ++ group_name);
  _ ← print ("Total number of datasets: " ++ format_int (total_datasets r));
  _ ← print ("Total size of all datasets: " ++ format_float 2 size_tb ++ " TB");
  _ ← for_each (report_year r) ["2022"; "2023"; "2024"] tt;
  per_dataset_text ← lift (format_fixed 2 per_dataset);
  _ ← print ("Average size per dataset: " ++ per_dataset_text ++ " TB");
  per_event_text ← lift (format_fixed 12 per_event);
  print ("Average size per event: " ++ per_event_text ++ " TB").

Definition process_group (group_results : list (string * results))
    (entry : string * list string) : M (list (string * results)) :=
  let '(group_name, patterns) := entry in
  r ← process_datasets group_name patterns;
  mret (group_results ++ [(group_name, r)]).

Definition main : M unit :=
  group_results ← for_each process_group group_patterns [];
  for_each report_group group_results tt.

End Script.

(** ** Notions the statements use *)

(** Standard output that decodes and parses. *)
Definition valid_json (w : World) (out : list byte) : Prop :=
  exists text v, decode out = Ok text /\ json_loads w text = Some v.

(** The exception met when standard output is not valid JSON:
    [JSONDecodeError] from [json.loads] for a text, [UnicodeDecodeError] from
    [decode] for bytes that are no text. *)
Definition decode_failure (out : list byte) : exn :=
  match decode out with
  | Ok _ => JSONDecodeError
  | Raise e => e
  end.

(** The client exits non-zero on the listing query of [pattern], with a
    standard error that is UTF-8 text. *)
Definition client_fails (w : World) (pattern : string) : Prop :=
  exists cp text,
    subprocess_run w (dasgoclient_args (dataset_query pattern)) = Ok cp
    /\ returncode cp <> 0%Z
    /\ decode (stderr cp) = Ok text.

(** An object with a [name] field. *)
Definition named (ds_info : value) : Prop :=
  exists kvs name, ds_info = VDict kvs /\ dict_get "name" kvs = Some name.

(** A record the Lister walks without an error: an object whose [dataset]
    field can be iterated and yields only objects with a [name] field. That
    is the expected shape, a list of named objects, and with it the empty
    [str] and the empty [dict], which Python iterates as empty sequences. *)
Definition well_shaped (entry : value) : Prop :=
  exists kvs ds infos,
    entry = VDict kvs /\ dict_get "dataset" kvs = Some ds
    /\ py_iter ds = Ok infos /\ Forall named infos.

(** An entry of a [dataset] sequence on which the test
    ['size' in ds_info and 'nevents' in ds_info] is false. *)
Definition lacks_fields (ds_info : value) : Prop :=
  py_contains "size" ds_info = Ok false
  \/ (py_contains "size" ds_info = Ok true
      /\ py_contains "nevents" ds_info = Ok false).

(** A record whose [dataset] sequence is walked to its end without a match. *)
Definition no_match (entry : value) : Prop :=
  exists ds infos,
    py_getitem entry "dataset" = Ok ds /\ py_iter ds = Ok infos
    /\ Forall lacks_fields infos.

(** The number [v] stands for in an addition, if any. *)
Definition to_number (v : value) : option number :=
  match v with
  | VInt z => Some (Int z)
  | VBool b => Some (Int (Z.b2z b))
  | VFloat q => Some (Float q)
  | _ => None
  end.

Definition year_tokens : list (string * string) :=
  [("Run2022", "2022"); ("Run2023", "2023"); ("Run2024", "2024")].

(** The year of the first token, in the order tested, that a name contains. *)
Definition first_year (name : string) : option string :=
  snd <$> find (fun ty => contains (fst ty) name) year_tokens.

(** The same on any listed object, with Python's [in]. *)
Definition value_year (dataset : value) : result (option string) :=
  in2022 ← py_contains "Run2022" dataset;
  if in2022 : bool then Ok (Some "2022")
  else
    in2023 ← py_contains "Run2023" dataset;
    if in2023 : bool then Ok (Some "2023")
    else
      in2024 ← py_contains "Run2024" dataset;
      if in2024 : bool then Ok (Some "2024") else Ok None.

(** [results] after one dataset of year [year] (or of no year) is counted. *)
Definition counted_in (r : results) (year : option string) (size events : number)
    : results :=
  {| total_datasets := total_datasets r + 1;
     total_size := num_add (total_size r) size;
     total_events := num_add (total_events r) events;
     size_by_year :=
       match year with
       | Some y => <[y := num_add (dd_size (size_by_year r) y) size]> (size_by_year r)
       | None => size_by_year r
       end;
     count_by_year :=
       match year with
       | Some y => <[y := (dd_count (count_by_year r) y + 1)%Z]> (count_by_year r)
       | None => count_by_year r
       end |}.


(** The datasets the Lister yields for the patterns, in order. *)
Definition listed (w : World) (patterns : list string) : list value :=
  flat_map
    (fun pattern =>
       match outcome (get_datasets w pattern) with
       | Ok datasets => datasets
       | Raise _ => []
       end)
    patterns.

(** A dataset whose fetched size and events are both not [None]. *)
Definition is_counted (w : World) (dataset : value) : bool :=
  match outcome (get_dataset_info w dataset) with
  | Ok (Some (size, events)) => negb (is_none size) && negb (is_none events)
  | _ => false
  end.

Definition counted (w : World) (patterns : list string) : list value :=
  filter (fun d => is_counted w d = true) (listed w patterns).


Definition in_year (year : string) (dataset : value) : bool :=
  match value_year dataset with
  | Ok (Some y) => String.eqb y year
  | _ => false
  end.

(** ** The Aggregator as a fold *)

(** What the fold reads of a listed dataset that it counts: the year of its
    name, its size and its events. *)
Definition fetched (w : World) (dataset : value)
    : option (option string * (number * number)) :=
  match outcome (get_dataset_info w dataset) with
  | Ok (Some (size, events)) =>
      match value_year dataset, to_number size, to_number events with
      | Ok year, Some s, Some e => Some (year, (s, e))
      | _, _, _ => None
      end
  | _ => None
  end.

Definition aggregate (entries : list (option string * (number * number)))
    (r : results) : results :=
  fold_left (fun r entry => counted_in r entry.1 entry.2.1 entry.2.2) entries r.


(** The two lines the Reporter prints for a year whose size in TB is
    [size_tb]. *)
Definition year_lines (r : results) (year : string) (size_tb : spec_float)
    : list string :=
  [ count_line year (dd_count (count_by_year r) year);
    size_line year size_tb ].

(** ** Concrete catalogues

    Worlds for the examples: the client answers each known query with a
    completed process, and the parser knows the documents that were written
    out with [dumps]. *)

Definition dquote : string := String (ascii_of_nat 34) EmptyString.

(** A JSON string literal (for texts without quotes, backslashes or control
    characters). *)
Definition quoted (s : string) : string := dquote ++ s ++ dquote.

Definition join (sep : string) (parts : list string) : string :=
  match parts with
  | [] => ""
  | p :: ps => fold_left (fun acc x => (acc ++ sep ++ x)%string) ps p
  end.

(** The JSON text of an object built from [None], [bool], [int], [str],
    [list] and [dict]. *)
Fixpoint dumps (v : value) : string :=
  match v with
  | VNone => "null"
  | VBool b => if b then "true" else "false"
  | VInt z => format_int z
  | VFloat q => format_decimal 6 (Qnum q <? 0)%Z (Qnum q) (Qden q)
  | VStr s => quoted s
  | VList l => "[" ++ join ", " (map dumps l) ++ "]"
  | VDict kvs =>
      "{" ++ join ", "
               (map (fun kv => (quoted (fst kv) ++ ": " ++ dumps (snd kv))%string) kvs)
      ++ "}"
  end.

Definition assoc {A : Type} (k : string) (l : list (string * A)) : option A :=
  snd <$> find (fun kv => String.eqb k (fst kv)) l.

(** Exit status 0 with [v] written on standard output. *)
Definition serve (v : value) : CompletedProcess :=
  {| returncode := 0; stdout := list_byte_of_string (dumps v); stderr := [] |}.

Definition catalogue (answers : list (string * CompletedProcess))
    (documents : list value) : World :=
  {| subprocess_run := fun args =>
       match args with
       | [_; _; query; _] =>
           match assoc query answers with
           | Some cp => Ok cp
           | None => Raise OSError
           end
       | _ => Raise OSError
       end;
     json_loads := fun text =>
       find (fun v => String.eqb (dumps v) text) documents;
     exn_str := fun _ => "error";
     py_repr := fun _ => "object" |}.

Definition record (fields : list (string * value)) : value :=
  VList [VDict [("dataset", VList [VDict fields])]].

(** Scenario A of the specification. *)
Definition name_A : string := "/A/Run2022X/ALCARECO".
Definition name_B : string := "/B/Run2023Y/ALCARECO".
Definition pattern_A : string := "/*/Run202*/ALCARECO".

Definition listing_A : value :=
  VList [ VDict [("dataset", VList [VDict [("name", VStr name_A)]])];
          VDict [("dataset", VList [VDict [("name", VStr name_B)]])] ].

Definition info_A : value :=
  record [("name", VStr name_A); ("size", VInt 100); ("nevents", VInt 10)].
Definition info_B : value :=
  record [("name", VStr name_B); ("size", VInt 200); ("nevents", VInt 20)].

Definition world_A : World :=
  catalogue
    [ (dataset_query pattern_A, serve listing_A);
      (dataset_query name_A, serve info_A);
      (dataset_query name_B, serve info_B) ]
    [listing_A; info_A; info_B].

(** A client that exits with status [code] and [err] on standard error. *)
Definition failing (code : Z) (err : list byte) : CompletedProcess :=
  {| returncode := code; stdout := []; stderr := err |}.

(** The client is down: it exits 1 with a message. *)
Definition world_down : World :=
  catalogue
    [(dataset_query pattern_A,
      failing 1 (list_byte_of_string "dial tcp: connection refused"))]
    [].

(** The client exits 1 and its standard error is the byte 0xFF. *)
Definition world_undecodable : World :=
  catalogue [(dataset_query pattern_A, failing 1 [xff])] [].

(** The client exits 0 with a page that is no JSON document. *)
Definition page : CompletedProcess :=
  {| returncode := 0;
     stdout := list_byte_of_string "<html>502 Bad Gateway</html>";
     stderr := [] |}.

Definition world_garbled : World :=
  catalogue [(dataset_query pattern_A, page)] [].

(** Metadata answers: a record without size and events; a record that is
    not of the expected shape followed by one with both fields; and two
    records with both fields. *)
Definition name_C : string := "/C/Run2024Z/ALCARECO".
Definition name_D : string := "/D/Run2024Z/ALCARECO".
Definition name_E : string := "/E/Run2024Z/ALCARECO".

Definition info_C : value := record [("name", VStr name_C)].

Definition info_D : value :=
  VList [ VDict [("error", VStr "timeout")];
          VDict [("dataset",
                  VList [VDict [("size", VInt 5); ("nevents", VInt 7)]])] ].

Definition info_E : value :=
  VList [ VDict [("dataset", VList [VDict [("name", VStr name_E)]])];
          VDict [("dataset",
                  VList [ VDict [("name", VStr name_E)];
                          VDict [("size", VInt 5); ("nevents", VInt 7)];
                          VDict [("size", VInt 6); ("nevents", VInt 8)] ])];
          VDict [("dataset",
                  VList [VDict [("size", VInt 9); ("nevents", VInt 9)]])] ].

Definition listing_C : value := record [("name", VStr name_C)].

Definition world_info : World :=
  catalogue
    [ (dataset_query pattern_A, serve listing_C);
      (dataset_query name_C, serve info_C);
      (dataset_query name_D, serve info_D);
      (dataset_query name_E, serve info_E) ]
    [listing_C; info_C; info_D; info_E].

(** A listing whose second record has no [dataset] key. *)
Definition listing_broken : value :=
  VList [ VDict [("dataset", VList [VDict [("name", VStr name_A)]])];
          VDict [("error", VStr "timeout")] ].

Definition world_broken : World :=
  catalogue [(dataset_query pattern_A, serve listing_broken)] [listing_broken].

(** A listing with a dataset of 2022 and one whose name has no year token. *)
Definition name_X : string := "/X/Commissioning2021-v1/ALCARECO".

Definition listing_X : value :=
  VList [ VDict [("dataset", VList [ VDict [("name", VStr name_A)];
                                     VDict [("name", VStr name_X)] ])] ].

Definition info_X : value :=
  record [("name", VStr name_X); ("size", VInt 50); ("nevents", VInt 5)].

Definition world_X : World :=
  catalogue
    [ (dataset_query pattern_A, serve listing_X);
      (dataset_query name_A, serve info_A);
      (dataset_query name_X, serve info_X) ]
    [listing_X; info_A; info_X].

(** The catalogue of scenario A behind another Python: the texts of
    exceptions and of formatted objects differ. *)
Definition world_A' : World :=
  {| subprocess_run := subprocess_run world_A;
     json_loads := json_loads world_A;
     exn_str := fun _ => "failure";
     py_repr := fun _ => "<object>" |}.

(** ** Notions of the further properties *)

(** An object with a [name] field holding [name]. *)
Definition has_name (ds_info name : value) : Prop :=
  exists kvs, ds_info = VDict kvs /\ dict_get "name" kvs = Some name.

(** A record of the expected shape whose [dataset] sequence holds objects with
    the names [names], in order. *)
Definition lists_names (entry : value) (names : list value) : Prop :=
  exists kvs ds infos,
    entry = VDict kvs /\ dict_get "dataset" kvs = Some ds
    /\ py_iter ds = Ok infos /\ Forall2 has_name infos names.

(** No client is installed: no process can be started. *)
Definition world_absent : World := catalogue [] [].

(** The catalogue answers the listing with an empty array. *)
Definition world_empty : World :=
  catalogue [(dataset_query pattern_A, serve (VList []))] [VList []].

(** A listed dataset the fold passes without raising: the Fetcher returned a
    pair, and either one of its components is [None] or both are numbers and
    the tests of the name for the year tokens are defined. *)
Definition dataset_ok (w : World) (dataset : value) : Prop :=
  exists size events,
    outcome (get_dataset_info w dataset) = Ok (Some (size, events))
    /\ (is_none size || is_none events = true
        \/ exists s e year,
             to_number size = Some s /\ to_number events = Some e
             /\ value_year dataset = Ok year).

(** A pattern whose listing returns and whose datasets all pass. *)
Definition pattern_ok (w : World) (pattern : string) : Prop :=
  exists datasets,
    outcome (get_datasets w pattern) = Ok datasets
    /\ Forall (dataset_ok w) datasets.

Definition years : list string := ["2022"; "2023"; "2024"].

(** The keys of the two year maps agree and are recognised years. *)
Definition year_keys (r : results) : Prop :=
  forall year,
    (size_by_year r !! year = None <-> count_by_year r !! year = None)
    /\ (count_by_year r !! year <> None -> In year years).

(** What the fold keeps of a dataset are integers. *)
Definition int_entry (entry : option string * (number * number)) : Prop :=
  exists s e, entry.2 = (Int s, Int e).

Definition entry_size (entry : option string * (number * number)) : Z :=
  match entry.2.1 with
  | Int s => s
  | Float _ => 0
  end.

Definition entry_events (entry : option string * (number * number)) : Z :=
  match entry.2.2 with
  | Int e => e
  | Float _ => 0
  end.

(** A counted dataset whose fetched size and events are [int]. *)
Definition int_metadata (w : World) (dataset : value) : Prop :=
  exists entry, fetched w dataset = Some entry /\ int_entry entry.

(** The fetched size and events of a dataset, as integers. *)
Definition fetched_size (w : World) (dataset : value) : Z :=
  from_option entry_size 0%Z (fetched w dataset).

Definition fetched_events (w : World) (dataset : value) : Z :=
  from_option entry_events 0%Z (fetched w dataset).

Definition sum_list (l : list Z) : Z := foldr Z.add 0%Z l.

(** The first line of a report block, and the test for it. *)
Definition report_header : string := String (ascii_of_nat 10) "Group: ".

Definition is_header (line : string) : bool := String.prefix report_header line.

(** A group that is processed and whose report block is printed to its
    end. *)
Definition group_reported (w : World) (entry : string * list string) : Prop :=
  exists r,
    outcome (process_datasets w entry.1 entry.2) = Ok r
    /\ outcome (report_group tt (entry.1, r)) = Ok tt.

(** A line that does not start a report block. *)
Definition quiet (line : string) : Prop := is_header line = false.

(** The lines of one report block, given the sizes in TB and the two
    averages as they were formatted. *)
Definition report_lines (group_name : string) (r : results)
    (size_tb size_2022 size_2023 size_2024 : spec_float)
    (per_dataset per_event : string) : list string :=
  [ (newline ++ "Group: " ++ group_name)%string;
    ("Total number of datasets: " ++ format_int (total_datasets r))%string;
    ("Total size of all datasets: " ++ format_float 2 size_tb ++ " TB")%string ]
  ++ year_lines r "2022" size_2022 ++ year_lines r "2023" size_2023
  ++ year_lines r "2024" size_2024
  ++ [ ("Average size per dataset: " ++ per_dataset ++ " TB")%string;
       ("Average size per event: " ++ per_event ++ " TB")%string ].

(** A listing of two datasets; the catalogue has a null size for the second. *)
Definition listing_N : value :=
  VList [ VDict [("dataset", VList [ VDict [("name", VStr name_A)];
                                     VDict [("name", VStr name_B)] ])] ].

Definition info_N : value :=
  record [("name", VStr name_B); ("size", VNone); ("nevents", VInt 20)].

Definition world_N : World :=
  catalogue
    [ (dataset_query pattern_A, serve listing_N);
      (dataset_query name_A, serve info_A);
      (dataset_query name_B, serve info_N) ]
    [listing_N; info_A; info_N].

(** Two patterns, each listing one dataset. *)
Definition pattern_B : string := "/*/Run2023*/ALCARECO".

Definition world_two : World :=
  catalogue
    [ (dataset_query pattern_A, serve (record [("name", VStr name_A)]));
      (dataset_query pattern_B, serve (record [("name", VStr name_B)]));
      (dataset_query name_A, serve info_A);
      (dataset_query name_B, serve info_B) ]
    [ record [("name", VStr name_A)]; record [("name", VStr name_B)];
      info_A; info_B ].

(** The client exits 1 on every query, with a message. *)
Definition world_refused : World :=
  {| subprocess_run := fun _ =>
       Ok (failing 1 (list_byte_of_string "x509: certificate has expired"));
     json_loads := fun _ => None;
     exn_str := fun _ => "error";
     py_repr := fun _ => "object" |}.

(** Catalogues with an integer beyond the range of a [float]: as the number
    of events of the only dataset, and as its size. *)
Definition info_events : value :=
  record [("name", VStr name_A); ("size", VInt 1); ("nevents", VInt (10 ^ 400))].

Definition world_events : World :=
  catalogue
    [ (dataset_query pattern_A, serve (record [("name", VStr name_A)]));
      (dataset_query name_A, serve info_events) ]
    [record [("name", VStr name_A)]; info_events].

Definition info_huge : value :=
  record [("name", VStr name_A); ("size", VInt (10 ^ 400)); ("nevents", VInt 10)].

Definition world_huge : World :=
  catalogue
    [ (dataset_query pattern_A, serve (record [("name", VStr name_A)]));
      (dataset_query name_A, serve info_huge) ]
    [record [("name", VStr name_A)]; info_huge].

(** * Properties *)

(** ** Strings *)

Lemma append_cons c s t : (String c s ++ t)%string = String c (s ++ t)%string.
Proof. reflexivity. Qed.

Lemma prefix_app needle hay :
  String.prefix needle hay = true <-> exists post, hay = (needle ++ post)%string.
Proof.
  revert hay. induction needle as [|c needle IH]; intros hay.
  - split; [intros _; exists hay; reflexivity|intros _; destruct hay; reflexivity].
  - destruct hay as [|c' hay]; cbn [String.prefix].
    + split; [discriminate|]. intros [post Hpost].
      rewrite append_cons in Hpost. discriminate.
    + destruct (ascii_dec c c') as [<-|Hne].
      * rewrite IH. split; intros [post Hpost]; exists post;
          rewrite append_cons in *; congruence.
      * split; [discriminate|]. intros [post Hpost].
        rewrite append_cons in Hpost. congruence.
Qed.

(** [contains] is Python's substring test. *)
Lemma contains_substring needle hay :
  contains needle hay = true
  <-> exists pre post, hay = (pre ++ needle ++ post)%string.
Proof.
  induction hay as [|c hay IH]; cbn [contains]; rewrite orb_true_iff, prefix_app.
  - split.
    + intros [[post H]|H]; [exists "", post; exact H|discriminate].
    + intros (pre & post & H). left. exists post.
      destruct pre; [exact H|rewrite append_cons in H; discriminate].
  - rewrite IH. split.
    + intros [[post H]|(pre & post & H)]; [exists "", post; exact H|].
      exists (String c pre), post. rewrite append_cons. congruence.
    + intros (pre & post & H). destruct pre as [|c' pre]; [left; eauto|].
      right. exists pre, post. rewrite append_cons in H. congruence.
Qed.

Section Adapter.

Variable w : World.

Lemma get_das_data_parsed query cp text v :
  subprocess_run w (dasgoclient_args query) = Ok cp ->
  returncode cp = 0%Z ->
  decode (stdout cp) = Ok text ->
  json_loads w text = Some v ->
  get_das_data w query = ([], Ok v).
Proof.
  intros Hrun Hcode Hdec Hparse. unfold get_das_data, dasgoclient_args in *.
  rewrite Hrun. cbn. rewrite Hcode. cbn. rewrite Hdec. cbn. rewrite Hparse.
  reflexivity.
Qed.

Lemma get_das_data_exit_nonzero query cp text :
  subprocess_run w (dasgoclient_args query) = Ok cp ->
  returncode cp <> 0%Z ->
  decode (stderr cp) = Ok text ->
  get_das_data w query = ([("Error executing dasgoclient: " ++ text)%string], Ok VNone).
Proof.
  intros Hrun Hcode Hdec. unfold get_das_data, dasgoclient_args in *.
  rewrite Hrun. cbn. apply Z.eqb_neq in Hcode. rewrite Hcode. cbn.
  rewrite Hdec. reflexivity.
Qed.

Lemma get_das_data_exit_nonzero_undecodable query cp e :
  subprocess_run w (dasgoclient_args query) = Ok cp ->
  returncode cp <> 0%Z ->
  decode (stderr cp) = Raise e ->
  get_das_data w query = ([], Raise e).
Proof.
  intros Hrun Hcode Hdec. unfold get_das_data, dasgoclient_args in *.
  rewrite Hrun. cbn. apply Z.eqb_neq in Hcode. rewrite Hcode. cbn.
  rewrite Hdec. reflexivity.
Qed.

Lemma decode_raises b e : decode b = Raise e -> e = UnicodeDecodeError.
Proof. unfold decode. destruct (utf8_valid _); congruence. Qed.

End Adapter.

(** ** Outcomes of composed computations *)

Lemma outcome_bind {A B} (m : M A) (f : A -> M B) :
  outcome (m ≫= f) =
  match outcome m with
  | Ok a => outcome (f a)
  | Raise e => Raise e
  end.
Proof.
  destruct m as [out [a|e]]; cbn; [|reflexivity].
  destruct (f a); reflexivity.
Qed.

Lemma outcome_lift {A} (r : result A) : outcome (lift r) = r.
Proof. reflexivity. Qed.

Lemma outcome_try_except {A} (body : M A) classes handler :
  outcome (try_except body classes handler) =
  match outcome body with
  | Ok a => Ok a
  | Raise e => if classes e then outcome (handler e) else Raise e
  end.
Proof.
  destruct body as [out [a|e]]; cbn; [reflexivity|].
  destruct (classes e); [|reflexivity]. destruct (handler e); reflexivity.
Qed.

Lemma for_each_outcome_fixed {A S} (body : S -> A -> M S) (l : list A) (s : S) :
  Forall (fun x => outcome (body s x) = Ok s) l ->
  outcome (for_each body l s) = Ok s.
Proof.
  induction 1 as [|x l Hx _ IH]; [reflexivity|].
  cbn [for_each]. rewrite outcome_bind, Hx. exact IH.
Qed.

Section Failure.

Variable w : World.

Lemma get_datasets_no_data pattern out data :
  get_das_data w (dataset_query pattern) = (out, Ok data) ->
  truthy data = false ->
  outcome (get_datasets w pattern) = Ok [].
Proof.
  intros Hdata Hfalse. unfold get_datasets.
  rewrite outcome_bind. cbn. rewrite outcome_bind, Hdata. cbn.
  rewrite Hfalse. reflexivity.
Qed.

Lemma get_datasets_client_fails pattern :
  client_fails w pattern -> outcome (get_datasets w pattern) = Ok [].
Proof.
  intros (cp & text & Hrun & Hcode & Hdec).
  eapply (get_datasets_no_data pattern _ VNone); [|reflexivity].
  eapply get_das_data_exit_nonzero; eassumption.
Qed.

Lemma process_pattern_empty group_name r pattern :
  outcome (get_datasets w pattern) = Ok [] ->
  outcome (process_pattern w group_name r pattern) = Ok r.
Proof.
  intros H. unfold process_pattern. rewrite outcome_bind, H. reflexivity.
Qed.

(** C7, as amended. When the client exits non-zero on a query and its
    standard error is UTF-8 text, [get_das_data] prints that text after
    "Error executing dasgoclient: " and returns [None] without raising;
    [get_datasets] then returns the empty sequence for the pattern; and a
    group all of whose listing queries fail so has the initial aggregate:
    every total zero and both year maps empty. *)
Theorem client_failure_empty_aggregate :
  (forall query cp text,
     subprocess_run w (dasgoclient_args query) = Ok cp ->
     returncode cp <> 0%Z ->
     decode (stderr cp) = Ok text ->
     get_das_data w query
     = ([("Error executing dasgoclient: " ++ text)%string], Ok VNone))
  /\ (forall pattern,
        client_fails w pattern -> outcome (get_datasets w pattern) = Ok [])
  /\ (forall group_name patterns,
        Forall (client_fails w) patterns ->
        outcome (process_datasets w group_name patterns)
        = Ok {| total_datasets := 0; total_size := Int 0; total_events := Int 0;
                size_by_year := ∅; count_by_year := ∅ |}).
Proof.
  split; [exact (get_das_data_exit_nonzero w)|].
  split; [exact get_datasets_client_fails|].
  intros group_name patterns Hall. unfold process_datasets.
  apply for_each_outcome_fixed.
  eapply List.Forall_impl; [|exact Hall].
  intros pattern Hfail. apply process_pattern_empty.
  apply get_datasets_client_fails, Hfail.
Qed.

End Failure.

(** ** The Lister's walk *)

Lemma py_getitem_error v k e : py_getitem v k = Raise e -> structural e = true.
Proof.
  destruct v; cbn; try (intros [= <-]; reflexivity).
  destruct (dict_get k kvs); [discriminate|]. intros [= <-]. reflexivity.
Qed.

Lemma py_iter_error v e : py_iter v = Raise e -> structural e = true.
Proof. destruct v; cbn; try discriminate; intros [= <-]; reflexivity. Qed.

Lemma py_contains_error k v e : py_contains k v = Raise e -> structural e = true.
Proof. destruct v; cbn; try discriminate; intros [= <-]; reflexivity. Qed.

Lemma py_getitem_ok v k x :
  py_getitem v k = Ok x <-> exists kvs, v = VDict kvs /\ dict_get k kvs = Some x.
Proof.
  split.
  - destruct v; cbn; try discriminate.
    destruct (dict_get k kvs) eqn:H; [|discriminate]. intros [= <-]. eauto.
  - intros (kvs & -> & H). cbn. rewrite H. reflexivity.
Qed.

Lemma append_names_ok infos : forall acc names,
  append_names infos acc = Ok names -> Forall named infos.
Proof.
  induction infos as [|i infos IH]; intros acc names H; [constructor|].
  cbn in H. destruct (py_getitem i "name") as [n|e] eqn:Hn; [|discriminate].
  cbn in H. constructor; [|eauto].
  apply py_getitem_ok in Hn. destruct Hn as (kvs & -> & Hn). exists kvs, n. auto.
Qed.

Lemma append_names_named infos : forall acc,
  Forall named infos -> exists names, append_names infos acc = Ok (acc ++ names).
Proof.
  induction infos as [|i infos IH]; intros acc H.
  - exists []. cbn. rewrite app_nil_r. reflexivity.
  - inversion H as [|? ? (kvs & n & -> & Hn) Hrest]; subst.
    destruct (IH (acc ++ [n]) Hrest) as (names & Hnames).
    exists (n :: names). cbn. rewrite Hn. cbn. rewrite Hnames.
    rewrite <- app_assoc. reflexivity.
Qed.

Lemma append_names_error infos : forall acc e,
  append_names infos acc = Raise e -> structural e = true.
Proof.
  induction infos as [|i infos IH]; intros acc e H; [discriminate|].
  cbn in H. destruct (py_getitem i "name") as [n|e'] eqn:Hn; cbn in H.
  - eauto.
  - injection H as <-. eapply py_getitem_error, Hn.
Qed.

Lemma append_entry_ok entry acc names :
  append_entry entry acc = Ok names -> well_shaped entry.
Proof.
  unfold append_entry. intros H.
  destruct (py_getitem entry "dataset") as [ds|e] eqn:Hds; [|discriminate].
  cbn in H. destruct (py_iter ds) as [infos|e] eqn:Hit; [|discriminate].
  cbn in H. apply py_getitem_ok in Hds. destruct Hds as (kvs & -> & Hds).
  exists kvs, ds, infos. eauto using append_names_ok.
Qed.

Lemma append_entry_well_shaped entry acc :
  well_shaped entry -> exists names, append_entry entry acc = Ok (acc ++ names).
Proof.
  intros (kvs & ds & infos & -> & Hds & Hit & Hnamed).
  destruct (append_names_named infos acc Hnamed) as (names & H).
  exists names. unfold append_entry. cbn. rewrite Hds. cbn. rewrite Hit. exact H.
Qed.

Lemma append_entry_error entry acc e :
  append_entry entry acc = Raise e -> structural e = true.
Proof.
  unfold append_entry. intros H.
  destruct (py_getitem entry "dataset") as [ds|e'] eqn:Hds; cbn in H;
    [|injection H as <-; eapply py_getitem_error, Hds].
  destruct (py_iter ds) as [infos|e'] eqn:Hit; cbn in H;
    [|injection H as <-; eapply py_iter_error, Hit].
  eapply append_names_error, H.
Qed.

(** A record that is not of the expected shape makes the walk raise one of
    the exceptions the handler names. *)
Lemma append_entry_malformed entry acc :
  ~ well_shaped entry ->
  exists e, append_entry entry acc = Raise e /\ structural e = true.
Proof.
  intros Hbad. destruct (append_entry entry acc) as [names|e] eqn:H.
  - exfalso. eauto using append_entry_ok.
  - eauto using append_entry_error.
Qed.

Lemma append_entries_malformed entries : forall acc,
  Exists (fun entry => ~ well_shaped entry) entries ->
  exists e, append_entries entries acc = Raise e /\ structural e = true.
Proof.
  induction entries as [|entry entries IH]; intros acc Hex.
  - inversion Hex.
  - cbn. destruct (append_entry entry acc) as [acc'|e] eqn:H; cbn.
    + apply IH. inversion Hex as [? ? Hbad|]; subst; [|assumption].
      exfalso. eauto using append_entry_ok.
    + eauto using append_entry_error.
Qed.

Section Lister.

Variable w : World.

(** What [get_datasets] returns, the printed lines left aside. *)
Lemma get_datasets_outcome pattern :
  outcome (get_datasets w pattern) =
  match outcome (get_das_data w (dataset_query pattern)) with
  | Ok data =>
      if truthy data then
        match py_iter data ≫= (fun entries => append_entries entries []) with
        | Ok datasets => Ok datasets
        | Raise e => if structural e then Ok [] else Raise e
        end
      else Ok []
  | Raise e => Raise e
  end.
Proof.
  unfold get_datasets. rewrite outcome_bind. cbn [outcome print snd].
  rewrite outcome_bind.
  destruct (outcome (get_das_data w (dataset_query pattern))) as [data|e];
    [|reflexivity].
  destruct (truthy data); cbn [negb]; [|reflexivity].
  rewrite outcome_try_except, outcome_lift.
  destruct (py_iter data ≫= _) as [datasets|e]; [reflexivity|].
  destruct (structural e); reflexivity.
Qed.

(** C4. When some record of the adapter's result fails to match the expected
    shape, in that walking it raises [KeyError] or [TypeError] (it is no
    object, has no [dataset] key, its [dataset] field cannot be iterated, or
    an item of it is no object with a [name] key; [IndexError] cannot arise in
    the walk), [get_datasets] returns the empty sequence, whatever names the
    earlier records held. *)
Theorem get_datasets_malformed_record_empty pattern out data entries :
  get_das_data w (dataset_query pattern) = (out, Ok data) ->
  py_iter data = Ok entries ->
  Exists (fun entry => ~ well_shaped entry) entries ->
  outcome (get_datasets w pattern) = Ok [].
Proof.
  intros Hdata Hiter Hbad.
  rewrite get_datasets_outcome, Hdata. cbn [outcome snd].
  destruct (truthy data); [|reflexivity].
  rewrite Hiter. cbn [mbind result_bind].
  destruct (append_entries_malformed entries [] Hbad) as (e & -> & ->).
  reflexivity.
Qed.

End Lister.

(** ** The Fetcher's walk *)

Lemma scan_infos_error infos e :
  scan_infos infos = Raise e -> structural e = true.
Proof.
  induction infos as [|i infos IH]; [discriminate|]. cbn.
  destruct (py_contains "size" i) as [[|]|e1] eqn:Hs; cbn;
    [| exact IH | intros [= <-]; eapply py_contains_error, Hs].
  destruct (py_contains "nevents" i) as [[|]|e1] eqn:Hn; cbn;
    [| exact IH | intros [= <-]; eapply py_contains_error, Hn].
  destruct (py_getitem i "size") as [s|e1] eqn:Hgs; cbn;
    [|intros [= <-]; eapply py_getitem_error, Hgs].
  destruct (py_getitem i "nevents") as [n|e1] eqn:Hgn; cbn;
    [discriminate | intros [= <-]; eapply py_getitem_error, Hgn].
Qed.

Lemma scan_entries_error entries e :
  scan_entries entries = Raise e -> structural e = true.
Proof.
  induction entries as [|entry entries IH]; [discriminate|]. cbn.
  destruct (py_getitem entry "dataset") as [ds|e1] eqn:Hds; cbn;
    [|intros [= <-]; eapply py_getitem_error, Hds].
  destruct (py_iter ds) as [infos|e1] eqn:Hit; cbn;
    [|intros [= <-]; eapply py_iter_error, Hit].
  destruct (scan_infos infos) as [[hit|]|e1] eqn:Hscan; cbn;
    [discriminate | exact IH | intros [= <-]; eapply scan_infos_error, Hscan].
Qed.

Lemma scan_infos_skip skipped rest :
  Forall lacks_fields skipped ->
  scan_infos (skipped ++ rest) = scan_infos rest.
Proof.
  induction 1 as [|i skipped [Hs|[Hs Hn]] _ IH]; [reflexivity| |].
  - cbn. rewrite Hs. cbn. exact IH.
  - cbn. rewrite Hs. cbn. rewrite Hn. cbn. exact IH.
Qed.

Lemma scan_infos_hit kvs size nevents later :
  dict_get "size" kvs = Some size ->
  dict_get "nevents" kvs = Some nevents ->
  scan_infos (VDict kvs :: later) = Ok (Some (size, nevents)).
Proof. intros Hs Hn. cbn. rewrite Hs, Hn. reflexivity. Qed.

Lemma scan_entries_skip before rest :
  Forall no_match before ->
  scan_entries (before ++ rest) = scan_entries rest.
Proof.
  induction 1 as [|entry before (ds & infos & Hds & Hit & Hlack) _ IH];
    [reflexivity|].
  cbn. rewrite Hds. cbn. rewrite Hit. cbn.
  rewrite <- (app_nil_r infos), (scan_infos_skip infos [] Hlack). cbn. exact IH.
Qed.

Section Fetcher.

Variable w : World.

(** What [get_dataset_info] returns, the printed lines left aside. *)
Lemma get_dataset_info_outcome dataset :
  outcome (get_dataset_info w dataset) =
  match outcome (get_das_data w (dataset_query (format_value w dataset))) with
  | Ok data =>
      if truthy data then
        match py_iter data ≫= scan_entries with
        | Ok found => Ok found
        | Raise e => if structural e then Ok (Some (VNone, VNone)) else Raise e
        end
      else Ok (Some (VNone, VNone))
  | Raise e => Raise e
  end.
Proof.
  unfold get_dataset_info. rewrite outcome_bind.
  destruct (outcome (get_das_data w _)) as [data|e]; [|reflexivity].
  destruct (truthy data); cbn [negb]; [|reflexivity].
  rewrite outcome_try_except, outcome_lift.
  destruct (py_iter data ≫= _) as [found|e]; [reflexivity|].
  destruct (structural e); reflexivity.
Qed.

(** C1, as amended. On a non-empty adapter result: if the walk over the
    records raises a structural error before it finds an entry with both
    fields, [get_dataset_info] returns [(None, None)]; if the walk reaches
    an entry that is an object with both a [size] and an [nevents] field,
    every earlier record and entry having been walked without a match,
    it returns the size and the event count of that first entry, whatever
    the later entries and records are. *)
Theorem get_dataset_info_first_match dataset out data :
  get_das_data w (dataset_query (format_value w dataset)) = (out, Ok data) ->
  truthy data = true ->
  (forall e,
     py_iter data ≫= scan_entries = Raise e ->
     outcome (get_dataset_info w dataset) = Ok (Some (VNone, VNone)))
  /\ (forall before entry after ds skipped kvs later size nevents,
        py_iter data = Ok (before ++ entry :: after) ->
        Forall no_match before ->
        py_getitem entry "dataset" = Ok ds ->
        py_iter ds = Ok (skipped ++ VDict kvs :: later) ->
        Forall lacks_fields skipped ->
        dict_get "size" kvs = Some size ->
        dict_get "nevents" kvs = Some nevents ->
        outcome (get_dataset_info w dataset) = Ok (Some (size, nevents))).
Proof.
  intros Hdata Htruthy.
  rewrite get_dataset_info_outcome, Hdata. cbn [outcome snd]. rewrite Htruthy.
  split.
  - intros e He. rewrite He.
    assert (structural e = true) as ->; [|reflexivity].
    destruct (py_iter data) as [entries|e'] eqn:Hit; cbn in He.
    + eapply scan_entries_error, He.
    + injection He as <-. eapply py_iter_error, Hit.
  - intros before entry after ds skipped kvs later size nevents
      Hit Hbefore Hds Hinfos Hskipped Hsize Hnevents.
    rewrite Hit. cbn [mbind result_bind].
    rewrite (scan_entries_skip _ _ Hbefore). cbn [scan_entries].
    rewrite Hds. cbn [mbind result_bind]. rewrite Hinfos. cbn [mbind result_bind].
    rewrite (scan_infos_skip _ _ Hskipped), (scan_infos_hit _ _ _ _ Hsize Hnevents).
    reflexivity.
Qed.


End Fetcher.

Section Propagation.

Variable w : World.

(** C8. When the client exits 0 and its standard output is not valid JSON,
    [get_das_data] does not catch the failure of decoding it: the exception
    propagates to the caller, nothing is printed and neither [None] nor any
    other object is returned; [get_datasets] and [get_dataset_info] do not
    catch it either. The exception is [JSONDecodeError] from [json.loads]
    whenever the output is text; for bytes that are no UTF-8 text it is the
    [UnicodeDecodeError] of [decode], met before [json.loads]. *)
Theorem get_das_data_parse_failure_propagates query cp :
  subprocess_run w (dasgoclient_args query) = Ok cp ->
  returncode cp = 0%Z ->
  ~ valid_json w (stdout cp) ->
  get_das_data w query = ([], Raise (decode_failure (stdout cp)))
  /\ (decode_failure (stdout cp) = JSONDecodeError
      \/ decode_failure (stdout cp) = UnicodeDecodeError)
  /\ (forall text, decode (stdout cp) = Ok text ->
        decode_failure (stdout cp) = JSONDecodeError)
  /\ (forall pattern, query = dataset_query pattern ->
        outcome (get_datasets w pattern) = Raise (decode_failure (stdout cp)))
  /\ (forall dataset, query = dataset_query (format_value w dataset) ->
        outcome (get_dataset_info w dataset)
        = Raise (decode_failure (stdout cp))).
Proof.
  intros Hrun Hcode Hbad.
  assert (get_das_data w query = ([], Raise (decode_failure (stdout cp)))) as H.
  { unfold decode_failure, get_das_data. rewrite Hrun. cbn. rewrite Hcode. cbn.
    destruct (decode (stdout cp)) as [text|e] eqn:Hdec;
      [|pose proof (decode_raises _ _ Hdec) as ->; reflexivity]. cbn.
    destruct (json_loads w text) as [v|] eqn:Hparse; [|reflexivity].
    exfalso. apply Hbad. exists text, v. auto. }
  split; [exact H|]. unfold decode_failure at 1 2 3.
  destruct (decode (stdout cp)) as [text|e] eqn:Hdec.
  - split; [left; reflexivity|]. split; [reflexivity|].
    split.
    + intros pattern ->. rewrite get_datasets_outcome, H. reflexivity.
    + intros dataset ->. rewrite get_dataset_info_outcome, H. reflexivity.
  - pose proof (decode_raises _ _ Hdec) as ->.
    split; [right; reflexivity|]. split; [congruence|].
    split.
    + intros pattern ->. rewrite get_datasets_outcome, H. reflexivity.
    + intros dataset ->. rewrite get_dataset_info_outcome, H. reflexivity.
Qed.

End Propagation.

(** ** One dataset *)

Lemma py_add_number a v n : to_number v = Some n -> py_add a v = Ok (num_add a n).
Proof. destruct v; cbn; intros [= <-]; reflexivity. Qed.

Lemma py_add_ok a v x :
  py_add a v = Ok x -> exists n, to_number v = Some n /\ x = num_add a n.
Proof. destruct v; cbn; intros [= <-]; eauto. Qed.

Lemma value_year_str name : value_year (VStr name) = Ok (first_year name).
Proof.
  unfold value_year, first_year. cbn.
  destruct (contains "Run2022" name); [reflexivity|]. cbn.
  destruct (contains "Run2023" name); [reflexivity|]. cbn.
  destruct (contains "Run2024" name); reflexivity.
Qed.

Lemma count_dataset_year r dataset size events :
  count_dataset r dataset size events =
  ts ← py_add (total_size r) size;
  te ← py_add (total_events r) events;
  year ← value_year dataset;
  let r' := {| total_datasets := total_datasets r + 1;
               total_size := ts; total_events := te;
               size_by_year := size_by_year r;
               count_by_year := count_by_year r |} in
  match year with
  | Some y => add_to_year r' y size
  | None => Ok r'
  end.
Proof.
  unfold count_dataset, value_year.
  destruct (py_add (total_size r) size) as [ts|]; [|reflexivity]. cbn.
  destruct (py_add (total_events r) events) as [te|]; [|reflexivity]. cbn.
  destruct (py_contains "Run2022" dataset) as [[|]|]; try reflexivity. cbn.
  destruct (py_contains "Run2023" dataset) as [[|]|]; try reflexivity. cbn.
  destruct (py_contains "Run2024" dataset) as [[|]|]; reflexivity.
Qed.

Lemma count_dataset_counted r dataset size events s e year :
  to_number size = Some s ->
  to_number events = Some e ->
  value_year dataset = Ok year ->
  count_dataset r dataset size events = Ok (counted_in r year s e).
Proof.
  intros Hs He Hy. rewrite count_dataset_year.
  rewrite (py_add_number _ _ _ Hs), (py_add_number _ _ _ He), Hy. cbn.
  destruct year as [y|]; [|reflexivity].
  unfold add_to_year. cbn. rewrite (py_add_number _ _ _ Hs). reflexivity.
Qed.

Lemma count_dataset_ok r dataset size events r' :
  count_dataset r dataset size events = Ok r' ->
  exists s e year,
    to_number size = Some s /\ to_number events = Some e
    /\ value_year dataset = Ok year /\ r' = counted_in r year s e.
Proof.
  intros H. pose proof H as H0. rewrite count_dataset_year in H0.
  destruct (py_add (total_size r) size) as [ts|] eqn:Hts; [|discriminate].
  destruct (py_add (total_events r) events) as [te|] eqn:Hte; [|discriminate].
  destruct (value_year dataset) as [year|] eqn:Hy; [|discriminate].
  apply py_add_ok in Hts as (s & Hs & _), Hte as (e & He & _).
  exists s, e, year. repeat split; try assumption.
  rewrite (count_dataset_counted r dataset size events s e year Hs He Hy) in H.
  congruence.
Qed.

(** C6. A counted dataset with integer size and events, the totals being
    integers: the name is tested for "Run2022", then "Run2023", then
    "Run2024". [total_datasets] grows by one, the size and the events are
    added to the totals, and for the year of the first token found the
    count of that year grows by one (from 0 when the year was absent) and the
    size is added to the size of that year; nothing else is changed in the two
    maps, which are left as they were when no token is found. A name that
    contains exactly one of the three tokens is put in the year of that
    token. *)
Theorem count_dataset_first_token r name size events a b :
  total_size r = Int a ->
  total_events r = Int b ->
  let year :=
    if contains "Run2022" name then Some "2022"
    else if contains "Run2023" name then Some "2023"
    else if contains "Run2024" name then Some "2024"
    else None in
  exists r',
    count_dataset r (VStr name) (VInt size) (VInt events) = Ok r'
    /\ total_datasets r' = (total_datasets r + 1)%Z
    /\ total_size r' = Int (a + size)
    /\ total_events r' = Int (b + events)
    /\ match year with
       | Some y =>
           count_by_year r'
           = <[y := match count_by_year r !! y with
                    | Some c => (c + 1)%Z
                    | None => 1%Z
                    end]> (count_by_year r)
           /\ (forall c, size_by_year r !! y = Some (Int c) ->
                 size_by_year r' = <[y := Int (c + size)]> (size_by_year r))
           /\ (size_by_year r !! y = None ->
                 size_by_year r' = <[y := Int size]> (size_by_year r))
       | None =>
           count_by_year r' = count_by_year r
           /\ size_by_year r' = size_by_year r
       end
    /\ (forall token y,
          In (token, y) year_tokens ->
          (forall token' y',
             In (token', y') year_tokens ->
             contains token' name = true <-> token' = token) ->
          year = Some y).
Proof.
  intros Ha Hb year.
  assert (first_year name = year) as Hyear.
  { unfold first_year, year. cbn.
    destruct (contains "Run2022" name); [reflexivity|].
    destruct (contains "Run2023" name); [reflexivity|].
    destruct (contains "Run2024" name); reflexivity. }
  exists (counted_in r year (Int size) (Int events)).
  split; [rewrite <- Hyear; apply count_dataset_counted;
          [reflexivity|reflexivity|apply value_year_str]|].
  split; [reflexivity|].
  split; [cbn; rewrite Ha; reflexivity|].
  split; [cbn; rewrite Hb; reflexivity|].
  split.
  - destruct year as [y|]; cbn; [|split; reflexivity].
    split; [|split].
    + unfold dd_count. destruct (count_by_year r !! y); reflexivity.
    + intros c Hc. unfold dd_size. rewrite Hc. reflexivity.
    + intros Hnone. unfold dd_size. rewrite Hnone. reflexivity.
  - intros token y Hin Hone. subst year.
    pose proof (Hone "Run2022" "2022" ltac:(cbn; auto)) as H22.
    pose proof (Hone "Run2023" "2023" ltac:(cbn; auto)) as H23.
    pose proof (Hone "Run2024" "2024" ltac:(cbn; auto)) as H24.
    cbn in Hin. destruct Hin as [[= <- <-]|[[= <- <-]|[[= <- <-]|[]]]].
    + rewrite (proj2 H22 eq_refl). reflexivity.
    + destruct (contains "Run2022" name);
        [destruct H22 as [H22 _]; discriminate (H22 eq_refl)|].
      rewrite (proj2 H23 eq_refl). reflexivity.
    + destruct (contains "Run2022" name);
        [destruct H22 as [H22 _]; discriminate (H22 eq_refl)|].
      destruct (contains "Run2023" name);
        [destruct H23 as [H23 _]; discriminate (H23 eq_refl)|].
      rewrite (proj2 H24 eq_refl). reflexivity.
Qed.

(** ** The fold over the listing *)

Lemma for_each_app_outcome {A S} (body : S -> A -> M S) l1 l2 s :
  outcome (for_each body (l1 ++ l2) s) =
  match outcome (for_each body l1 s) with
  | Ok s' => outcome (for_each body l2 s')
  | Raise e => Raise e
  end.
Proof.
  revert s. induction l1 as [|x l1 IH]; intros s; [reflexivity|].
  cbn [for_each app]. rewrite !outcome_bind.
  destruct (outcome (body s x)); [apply IH|reflexivity].
Qed.

Lemma for_each_outcome_ext {A S} (body1 body2 : S -> A -> M S) l :
  (forall s x, In x l -> outcome (body1 s x) = outcome (body2 s x)) ->
  forall s, outcome (for_each body1 l s) = outcome (for_each body2 l s).
Proof.
  induction l as [|x l IH]; intros Hext s; [reflexivity|].
  cbn [for_each]. rewrite !outcome_bind, Hext by (left; reflexivity).
  destruct (outcome (body2 s x)); [|reflexivity].
  apply IH. intros s' y Hy. apply Hext. right. exact Hy.
Qed.

Section Aggregator.

Variable w : World.

Lemma process_dataset_outcome r dataset :
  outcome (process_dataset w r dataset) =
  match outcome (get_dataset_info w dataset) with
  | Ok (Some (size, events)) =>
      if negb (is_none size) && negb (is_none events)
      then count_dataset r dataset size events
      else Ok r
  | Ok None => Raise TypeError
  | Raise e => Raise e
  end.
Proof.
  unfold process_dataset. rewrite outcome_bind.
  destruct (outcome (get_dataset_info w dataset)) as [[[size events]|]|e];
    try reflexivity.
  destruct (negb (is_none size) && negb (is_none events)); reflexivity.
Qed.


Lemma process_pattern_outcome group_name r pattern :
  outcome (process_pattern w group_name r pattern) =
  match outcome (get_datasets w pattern) with
  | Ok datasets => outcome (for_each (process_dataset w) datasets r)
  | Raise e => Raise e
  end.
Proof. unfold process_pattern. rewrite outcome_bind. reflexivity. Qed.

Lemma process_dataset_ok r dataset r' :
  outcome (process_dataset w r dataset) = Ok r' ->
  (is_counted w dataset = false /\ r' = r)
  \/ (is_counted w dataset = true
      /\ exists entry, fetched w dataset = Some entry
                       /\ r' = counted_in r entry.1 entry.2.1 entry.2.2).
Proof.
  rewrite process_dataset_outcome. unfold is_counted, fetched.
  destruct (outcome (get_dataset_info w dataset)) as [[[size events]|]|e];
    try discriminate.
  destruct (negb (is_none size) && negb (is_none events)).
  - intros H. right. split; [reflexivity|].
    apply count_dataset_ok in H as (s & e & year & -> & -> & -> & ->).
    exists (year, (s, e)). split; reflexivity.
  - intros [= <-]. left. split; reflexivity.
Qed.

Lemma for_each_dataset_ok datasets : forall r r',
  outcome (for_each (process_dataset w) datasets r) = Ok r' ->
  let kept := filter (fun d => is_counted w d = true) datasets in
  Forall (fun d => is_Some (fetched w d)) kept
  /\ r' = aggregate (omap (fetched w) kept) r.
Proof.
  induction datasets as [|d datasets IH]; intros r r' H.
  - injection H as <-. split; [constructor|reflexivity].
  - cbn [for_each] in H. rewrite outcome_bind in H.
    destruct (outcome (process_dataset w r d)) as [r1|e] eqn:Hd; [|discriminate].
    apply IH in H. cbn zeta in H. destruct H as [Hall ->].
    apply process_dataset_ok in Hd as [[Hc ->]|(Hc & entry & Hf & ->)]; cbn zeta.
    + rewrite filter_cons_False by congruence. split; [exact Hall|reflexivity].
    + rewrite filter_cons_True by exact Hc. split.
      * constructor; [rewrite Hf; eauto | exact Hall].
      * cbn [omap list_omap]. rewrite Hf. reflexivity.
Qed.

Lemma listed_cons pattern patterns :
  listed w (pattern :: patterns) = listed w [pattern] ++ listed w patterns.
Proof. unfold listed. cbn [flat_map]. rewrite app_nil_r. reflexivity. Qed.

Lemma listed_one pattern datasets :
  outcome (get_datasets w pattern) = Ok datasets -> listed w [pattern] = datasets.
Proof. intros H. unfold listed. cbn [flat_map]. rewrite H. apply app_nil_r. Qed.

(** The Aggregator is the fold of [counted_in] over the counted datasets. *)
Lemma process_datasets_aggregate group_name patterns : forall r r',
  outcome (for_each (process_pattern w group_name) patterns r) = Ok r' ->
  Forall (fun d => is_Some (fetched w d)) (counted w patterns)
  /\ r' = aggregate (omap (fetched w) (counted w patterns)) r.
Proof.
  induction patterns as [|p patterns IH]; intros r r' H.
  - injection H as <-. split; [constructor|reflexivity].
  - cbn [for_each] in H. rewrite outcome_bind, process_pattern_outcome in H.
    destruct (outcome (get_datasets w p)) as [datasets|e] eqn:Hp; [|discriminate].
    destruct (outcome (for_each (process_dataset w) datasets r)) as [r1|e] eqn:Hd;
      [|discriminate].
    apply for_each_dataset_ok in Hd. cbn zeta in Hd. destruct Hd as [Hall1 ->].
    apply IH in H as [Hall2 ->].
    unfold counted. rewrite listed_cons, (listed_one _ _ Hp), filter_app.
    split; [apply Forall_app; split; assumption|].
    rewrite omap_app. unfold aggregate. rewrite fold_left_app. reflexivity.
Qed.

(** C2. One group with one pattern: when the Lister yields
    "/A/Run2022X/ALCARECO" and "/B/Run2023Y/ALCARECO" and the Fetcher yields
    (100, 10) and (200, 20) for them, [process_datasets] returns
    total_datasets 2, total_size 300, total_events 30, count_by_year
    {2022: 1, 2023: 1} and size_by_year {2022: 100, 2023: 200}. *)
Theorem process_datasets_scenario_A group_name pattern :
  outcome (get_datasets w pattern)
  = Ok [VStr "/A/Run2022X/ALCARECO"; VStr "/B/Run2023Y/ALCARECO"] ->
  outcome (get_dataset_info w (VStr "/A/Run2022X/ALCARECO"))
  = Ok (Some (VInt 100, VInt 10)) ->
  outcome (get_dataset_info w (VStr "/B/Run2023Y/ALCARECO"))
  = Ok (Some (VInt 200, VInt 20)) ->
  outcome (process_datasets w group_name [pattern])
  = Ok {| total_datasets := 2;
          total_size := Int 300;
          total_events := Int 30;
          size_by_year := {[ "2022" := Int 100; "2023" := Int 200 ]};
          count_by_year := {[ "2022" := 1%Z; "2023" := 1%Z ]} |}.
Proof.
  intros Hlist HA HB. unfold process_datasets.
  cbn [for_each]. rewrite outcome_bind, process_pattern_outcome, Hlist.
  cbn [for_each]. rewrite outcome_bind, process_dataset_outcome, HA.
  cbn [negb is_none andb]. 
  erewrite count_dataset_counted;
    [|reflexivity|reflexivity|apply value_year_str].
  rewrite outcome_bind, process_dataset_outcome, HB.
  cbn [negb is_none andb].
  erewrite count_dataset_counted;
    [|reflexivity|reflexivity|apply value_year_str].
  vm_compute. reflexivity.
Qed.

End Aggregator.

(** ** The invariant of the aggregate *)



Lemma aggregate_cons entry entries r :
  aggregate (entry :: entries) r
  = aggregate entries (counted_in r entry.1 entry.2.1 entry.2.2).
Proof. reflexivity. Qed.


Lemma aggregate_lookup entries year : forall r,
  Forall (fun entry => entry.1 <> Some year) entries ->
  size_by_year (aggregate entries r) !! year = size_by_year r !! year
  /\ count_by_year (aggregate entries r) !! year = count_by_year r !! year.
Proof.
  induction entries as [|[y [s e]] entries IH]; intros r Hall; [split; reflexivity|].
  inversion Hall as [|? ? Hy Hrest]; subst. cbn [fst] in Hy.
  rewrite aggregate_cons. cbn [fst snd].
  destruct (IH (counted_in r y s e) Hrest) as [-> ->]. destruct y as [y|]; cbn [counted_in size_by_year count_by_year];
    [|split; reflexivity].
  rewrite !lookup_insert_ne by congruence. split; reflexivity.
Qed.

Section Invariant.

Variable w : World.

Lemma fetched_year dataset entry :
  fetched w dataset = Some entry -> value_year dataset = Ok entry.1.
Proof.
  unfold fetched.
  destruct (outcome (get_dataset_info w dataset)) as [[[size events]|]|];
    try discriminate.
  destruct (value_year dataset) as [year|]; [|discriminate].
  destruct (to_number size), (to_number events); try discriminate.
  intros [= <-]. reflexivity.
Qed.


Lemma fetched_other_year datasets year :
  Forall (fun d => is_Some (fetched w d)) datasets ->
  Forall (fun d => in_year year d = false) datasets ->
  Forall (fun entry => entry.1 <> Some year) (omap (fetched w) datasets).
Proof.
  induction 1 as [|d datasets [entry Hf] _ IH]; intros Hyear; [constructor|].
  inversion Hyear as [|? ? Hd Hrest]; subst.
  cbn [omap list_omap]. rewrite Hf. constructor; [|exact (IH Hrest)].
  pose proof (fetched_year _ _ Hf) as Hy. unfold in_year in Hd.
  rewrite Hy in Hd. intros Heq. rewrite Heq in Hd.
  rewrite String.eqb_refl in Hd. discriminate.
Qed.


End Invariant.

(** ** The Reporter *)

Lemma float_of_int_raises z e : float_of_int z = Raise e -> e = OverflowError.
Proof.
  unfold float_of_int.
  destruct (binary_normalize float_prec float_emax z 0 false);
    congruence.
Qed.

(** A [float] divided by an [int] that is not 0: the [int] is converted,
    which may overflow, and the quotient is taken. *)
Lemma truediv_float_int f z :
  z <> 0%Z ->
  truediv (SFloat f) (SInt z)
  = d ← float_of_int z; Ok (SFdiv float_prec float_emax f d).
Proof.
  intros Hz. unfold truediv, to_float, is_zero. cbn [mbind result_bind].
  apply Z.eqb_neq in Hz. rewrite Hz. reflexivity.
Qed.

(** A report block that is printed to its end. *)
Lemma report_group_returns state group_name r out :
  report_group state (group_name, r) = (out, Ok tt) ->
  exists size_tb size_2022 size_2023 size_2024 per_dataset per_event
         per_dataset_text per_event_text,
    total_size_tb r = Ok size_tb
    /\ average_size_per_dataset_tb r size_tb = Ok per_dataset
    /\ average_size_per_event_tb r size_tb = Ok per_event
    /\ truediv (to_scalar (dd_size (size_by_year r) "2022")) bytes_per_tb
       = Ok size_2022
    /\ truediv (to_scalar (dd_size (size_by_year r) "2023")) bytes_per_tb
       = Ok size_2023
    /\ truediv (to_scalar (dd_size (size_by_year r) "2024")) bytes_per_tb
       = Ok size_2024
    /\ format_fixed 2 per_dataset = Ok per_dataset_text
    /\ format_fixed 12 per_event = Ok per_event_text
    /\ out = report_lines group_name r size_tb size_2022 size_2023 size_2024
               per_dataset_text per_event_text.
Proof.
  unfold report_group, report_year. cbn [for_each]. intros H.
  destruct (total_size_tb r) as [size_tb|] eqn:Ht; [|discriminate].
  cbn [lift mbind M_bind] in H.
  destruct (average_size_per_dataset_tb r size_tb) as [per_dataset|] eqn:Hd;
    [|discriminate].
  cbn [lift mbind M_bind] in H.
  destruct (average_size_per_event_tb r size_tb) as [per_event|] eqn:He;
    [|discriminate].
  cbn [lift mbind M_bind print] in H.
  destruct (truediv (to_scalar (dd_size (size_by_year r) "2022")) bytes_per_tb)
    as [size_2022|] eqn:H22; [|discriminate].
  cbn [lift mbind M_bind print] in H.
  destruct (truediv (to_scalar (dd_size (size_by_year r) "2023")) bytes_per_tb)
    as [size_2023|] eqn:H23; [|discriminate].
  cbn [lift mbind M_bind print] in H.
  destruct (truediv (to_scalar (dd_size (size_by_year r) "2024")) bytes_per_tb)
    as [size_2024|] eqn:H24; [|discriminate].
  cbn [lift mbind M_bind print mret M_ret] in H.
  destruct (format_fixed 2 per_dataset) as [per_dataset_text|] eqn:Hfd;
    [|discriminate].
  cbn [lift mbind M_bind print] in H.
  destruct (format_fixed 12 per_event) as [per_event_text|] eqn:Hfe;
    [|discriminate].
  cbn [lift mbind M_bind print] in H.
  injection H as <-.
  exists size_tb, size_2022, size_2023, size_2024, per_dataset, per_event,
    per_dataset_text, per_event_text.
  repeat (split; [first [reflexivity | assumption]|]). reflexivity.
Qed.

(** C5, as amended. For an aggregate with integer totals for which
    [total_size / 1024**4] is computed: the average size per dataset is
    [total_size_tb / total_datasets] when [total_datasets > 0] and [0]
    otherwise, the average size per event is [total_size_tb / total_events]
    when [total_events > 0] and [0] otherwise; neither division raises
    [ZeroDivisionError]; a division raises only the [OverflowError] of a
    divisor too large to be converted to a [float]. When the report is
    printed to its end, its last two lines hold the two averages, and the
    first of them reads 0.00 when [total_datasets] is 0. *)
Theorem reporter_averages_guarded r size events size_tb :
  total_size r = Int size ->
  total_events r = Int events ->
  total_size_tb r = Ok size_tb ->
  int_truediv size (1024 ^ 4) = Ok size_tb
  /\ average_size_per_dataset_tb r size_tb
     = (if (0 <? total_datasets r)%Z
        then d ← float_of_int (total_datasets r);
             Ok (SFloat (SFdiv float_prec float_emax size_tb d))
        else Ok (SInt 0))
  /\ average_size_per_event_tb r size_tb
     = (if (0 <? events)%Z
        then d ← float_of_int events;
             Ok (SFloat (SFdiv float_prec float_emax size_tb d))
        else Ok (SInt 0))
  /\ average_size_per_dataset_tb r size_tb <> Raise ZeroDivisionError
  /\ average_size_per_event_tb r size_tb <> Raise ZeroDivisionError
  /\ (forall state group_name out,
        report_group state (group_name, r) = (out, Ok tt) ->
        exists per_dataset per_event per_dataset_text per_event_text lines,
          average_size_per_dataset_tb r size_tb = Ok per_dataset
          /\ average_size_per_event_tb r size_tb = Ok per_event
          /\ format_fixed 2 per_dataset = Ok per_dataset_text
          /\ format_fixed 12 per_event = Ok per_event_text
          /\ out = lines
                   ++ [("Average size per dataset: " ++ per_dataset_text
                        ++ " TB")%string;
                       ("Average size per event: " ++ per_event_text
                        ++ " TB")%string]
          /\ (total_datasets r = 0%Z -> per_dataset_text = "0.00"))
  .
Proof.
  intros Hsize Hevents Htb.
  assert (average_size_per_dataset_tb r size_tb
          = (if (0 <? total_datasets r)%Z
             then d ← float_of_int (total_datasets r);
                  Ok (SFloat (SFdiv float_prec float_emax size_tb d))
             else Ok (SInt 0))) as Hd.
  { unfold average_size_per_dataset_tb.
    destruct (0 <? total_datasets r)%Z eqn:Hpos; [|reflexivity].
    apply Z.ltb_lt in Hpos. rewrite truediv_float_int by lia.
    destruct (float_of_int (total_datasets r)); reflexivity. }
  assert (average_size_per_event_tb r size_tb
          = (if (0 <? events)%Z
             then d ← float_of_int events;
                  Ok (SFloat (SFdiv float_prec float_emax size_tb d))
             else Ok (SInt 0))) as He.
  { unfold average_size_per_event_tb. rewrite Hevents. cbn [num_pos to_scalar].
    destruct (0 <? events)%Z eqn:Hpos; [|reflexivity].
    apply Z.ltb_lt in Hpos. rewrite truediv_float_int by lia.
    destruct (float_of_int events); reflexivity. }
  split.
  { unfold total_size_tb in Htb. rewrite Hsize in Htb. exact Htb. }
  split; [exact Hd|]. split; [exact He|].
  split.
  { rewrite Hd. destruct (0 <? total_datasets r)%Z; [|discriminate].
    destruct (float_of_int (total_datasets r)) as [d|e] eqn:Hf; [discriminate|].
    rewrite (float_of_int_raises _ _ Hf). discriminate. }
  split.
  { rewrite He. destruct (0 <? events)%Z; [|discriminate].
    destruct (float_of_int events) as [d|e] eqn:Hf; [discriminate|].
    rewrite (float_of_int_raises _ _ Hf). discriminate. }
  intros state group_name out H.
  apply report_group_returns in H
    as (tb & s22 & s23 & s24 & pd & pe & td & te
        & Htb' & Hpd & Hpe & _ & _ & _ & Hfd & Hfe & ->).
  rewrite Htb in Htb'. injection Htb' as <-.
  exists pd, pe, td, te.
  exists ([ (newline ++ "Group: " ++ group_name)%string;
            ("Total number of datasets: " ++ format_int (total_datasets r))%string;
            ("Total size of all datasets: " ++ format_float 2 size_tb
             ++ " TB")%string ]
          ++ year_lines r "2022" s22 ++ year_lines r "2023" s23
          ++ year_lines r "2024" s24).
  split; [exact Hpd|]. split; [exact Hpe|]. split; [exact Hfd|].
  split; [exact Hfe|]. split.
  - unfold report_lines. rewrite <- !app_assoc. reflexivity.
  - intros Hzero. rewrite Hd, Hzero in Hpd. injection Hpd as <-.
    injection Hfd as <-. reflexivity.
Qed.

Section Report.

Variable w : World.

(** C10, as amended. When no counted dataset of a group falls in one of the
    years 2022, 2023, 2024, the year is absent from both maps of the
    aggregate; reading it does not fail: the two lines of that year are
    printed with count 0 and size 0.00 TB and nothing is raised for that
    year, and a report block printed to its end holds both lines. *)
Theorem report_prints_absent_year group_name patterns r year :
  outcome (process_datasets w group_name patterns) = Ok r ->
  In year ["2022"; "2023"; "2024"] ->
  Forall (fun d => in_year year d = false) (counted w patterns) ->
  count_by_year r !! year = None
  /\ size_by_year r !! year = None
  /\ report_year r tt year
     = ([("Total number of datasets in " ++ year ++ ": 0")%string;
         ("Total size of datasets in " ++ year ++ ": 0.00 TB")%string],
        Ok tt)
  /\ (forall state out,
        report_group state (group_name, r) = (out, Ok tt) ->
        In ("Total number of datasets in " ++ year ++ ": 0")%string out
        /\ In ("Total size of datasets in " ++ year ++ ": 0.00 TB")%string out).
Proof.
  intros H Hyear Hnone.
  apply process_datasets_aggregate in H as [Hall ->].
  destruct (aggregate_lookup _ year new_results
              (fetched_other_year w _ year Hall Hnone)) as [Hsize Hcount].
  set (r := aggregate _ _) in *.
  change (size_by_year new_results !! year) with (@None number) in Hsize.
  change (count_by_year new_results !! year) with (@None Z) in Hcount.
  split; [exact Hcount|]. split; [exact Hsize|].
  assert (truediv (to_scalar (dd_size (size_by_year r) year)) bytes_per_tb
          = Ok (S754_zero false)) as Hdiv.
  { unfold dd_size. rewrite Hsize. reflexivity. }
  split.
  { unfold report_year. rewrite Hdiv. unfold dd_count. rewrite Hcount.
    reflexivity. }
  intros state out Hout.
  apply report_group_returns in Hout
    as (tb & s22 & s23 & s24 & pd & pe & td & te
        & _ & _ & _ & H22 & H23 & H24 & _ & _ & ->).
  assert (forall size_tb,
            truediv (to_scalar (dd_size (size_by_year r) year)) bytes_per_tb
            = Ok size_tb ->
            year_lines r year size_tb
            = [("Total number of datasets in " ++ year ++ ": 0")%string;
               ("Total size of datasets in " ++ year ++ ": 0.00 TB")%string])
    as Hlines.
  { intros size_tb Heq. rewrite Hdiv in Heq. injection Heq as <-.
    unfold year_lines, dd_count. rewrite Hcount. reflexivity. }
  unfold report_lines.
  cbn [In] in Hyear. destruct Hyear as [<-|[<-|[<-|[]]]].
  - rewrite (Hlines _ H22). split; rewrite !in_app_iff; cbn; auto 10.
  - rewrite (Hlines _ H23). split; rewrite !in_app_iff; cbn; auto 10.
  - rewrite (Hlines _ H24). split; rewrite !in_app_iff; cbn; auto 10.
Qed.

End Report.

(** ** Determinism *)

Lemma in_listed w pattern patterns datasets d :
  In pattern patterns ->
  outcome (get_datasets w pattern) = Ok datasets ->
  In d datasets ->
  In d (listed w patterns).
Proof.
  intros Hp Hl Hd. unfold listed. apply in_flat_map.
  exists pattern. split; [exact Hp|]. rewrite Hl. exact Hd.
Qed.

(** C9. The aggregate is a function of the listed datasets and the fetched
    metadata alone: two runs of the Aggregator for which the Lister yields the
    same datasets and the Fetcher the same metadata end in the same way, with
    identical aggregates. *)
Theorem process_datasets_deterministic w1 w2 group1 group2 patterns :
  (forall pattern, In pattern patterns ->
     outcome (get_datasets w1 pattern) = outcome (get_datasets w2 pattern)) ->
  (forall d, In d (listed w1 patterns) ->
     outcome (get_dataset_info w1 d) = outcome (get_dataset_info w2 d)) ->
  outcome (process_datasets w1 group1 patterns)
  = outcome (process_datasets w2 group2 patterns).
Proof.
  intros Hlist Hinfo. unfold process_datasets.
  apply for_each_outcome_ext. intros r pattern Hp.
  rewrite !process_pattern_outcome, <- (Hlist _ Hp).
  destruct (outcome (get_datasets w1 pattern)) as [datasets|e] eqn:Hl;
    [|reflexivity].
  apply for_each_outcome_ext. intros r' d Hd.
  rewrite !process_dataset_outcome, (Hinfo d); [reflexivity|].
  eauto using in_listed.
Qed.

(** ** The claims on concrete catalogues *)

(** C1 as stated fails. For [name_C] the result is non-empty and its only
    record has no entry with both fields, but [get_dataset_info] runs off its
    end and returns [None], not the pair [(None, None)]; unpacking it in
    [process_datasets] raises [TypeError]. For [name_D] the second record
    holds an entry with size 5 and 7 events, but the first record has no
    [dataset] key and the answer is [(None, None)]. *)
Lemma get_dataset_info_claim_fails :
  (get_das_data world_info (dataset_query name_C) = ([], Ok info_C)
   /\ truthy info_C = true
   /\ (exists entries, py_iter info_C = Ok entries /\ Forall no_match entries)
   /\ outcome (get_dataset_info world_info (VStr name_C)) = Ok None
   /\ outcome (get_dataset_info world_info (VStr name_C))
      <> Ok (Some (VNone, VNone))
   /\ outcome (process_datasets world_info "PPS" [pattern_A]) = Raise TypeError)
  /\ (get_das_data world_info (dataset_query name_D) = ([], Ok info_D)
      /\ outcome (get_dataset_info world_info (VStr name_D))
         = Ok (Some (VNone, VNone))
      /\ outcome (get_dataset_info world_info (VStr name_D))
         <> Ok (Some (VInt 5, VInt 7))).
Proof.
  split.
  - split; [vm_compute; reflexivity|]. split; [reflexivity|].
    split.
    + eexists. split; [reflexivity|]. constructor; [|constructor].
      eexists _, _. split; [reflexivity|]. split; [reflexivity|].
      constructor; [|constructor]. left. reflexivity.
    + split; [vm_compute; reflexivity|].
      split; [vm_compute; discriminate|]. vm_compute. reflexivity.
  - split; [vm_compute; reflexivity|].
    split; [vm_compute; reflexivity|]. vm_compute. discriminate.
Qed.

Lemma get_dataset_info_first_match_witness :
  outcome (get_dataset_info world_info (VStr name_D)) = Ok (Some (VNone, VNone))
  /\ outcome (get_dataset_info world_info (VStr name_E))
     = Ok (Some (VInt 5, VInt 7)).
Proof.
  split.
  - assert (get_das_data world_info
              (dataset_query (format_value world_info (VStr name_D)))
            = ([], Ok info_D)) as H by (vm_compute; reflexivity).
    apply (proj1 (get_dataset_info_first_match world_info (VStr name_D) [] info_D
                    H eq_refl) (KeyError "dataset")).
    reflexivity.
  - assert (get_das_data world_info
              (dataset_query (format_value world_info (VStr name_E)))
            = ([], Ok info_E)) as H by (vm_compute; reflexivity).
    apply (proj2 (get_dataset_info_first_match world_info (VStr name_E) [] info_E
                    H eq_refl)
             [VDict [("dataset", VList [VDict [("name", VStr name_E)]])]]
             (VDict [("dataset",
                      VList [ VDict [("name", VStr name_E)];
                              VDict [("size", VInt 5); ("nevents", VInt 7)];
                              VDict [("size", VInt 6); ("nevents", VInt 8)] ])])
             [VDict [("dataset",
                      VList [VDict [("size", VInt 9); ("nevents", VInt 9)]])]]
             (VList [ VDict [("name", VStr name_E)];
                      VDict [("size", VInt 5); ("nevents", VInt 7)];
                      VDict [("size", VInt 6); ("nevents", VInt 8)] ])
             [VDict [("name", VStr name_E)]]
             [("size", VInt 5); ("nevents", VInt 7)]
             [VDict [("size", VInt 6); ("nevents", VInt 8)]]).
    + reflexivity.
    + constructor; [|constructor].
      exists (VList [VDict [("name", VStr name_E)]]), [VDict [("name", VStr name_E)]].
      split; [reflexivity|]. split; [reflexivity|].
      constructor; [left; reflexivity|constructor].
    + reflexivity.
    + reflexivity.
    + constructor; [left; reflexivity|constructor].
    + reflexivity.
    + reflexivity.
Defined.

Lemma process_datasets_scenario_A_witness :
  outcome (process_datasets world_A "PPS" [pattern_A])
  = Ok {| total_datasets := 2;
          total_size := Int 300;
          total_events := Int 30;
          size_by_year := {[ "2022" := Int 100; "2023" := Int 200 ]};
          count_by_year := {[ "2022" := 1%Z; "2023" := 1%Z ]} |}.
Proof.
  apply (process_datasets_scenario_A world_A "PPS" pattern_A);
    vm_compute; reflexivity.
Defined.


Lemma get_datasets_malformed_record_empty_witness :
  outcome (get_datasets world_broken pattern_A) = Ok [].
Proof.
  apply (get_datasets_malformed_record_empty world_broken pattern_A []
           listing_broken
           [ VDict [("dataset", VList [VDict [("name", VStr name_A)]])];
             VDict [("error", VStr "timeout")] ]).
  - vm_compute. reflexivity.
  - reflexivity.
  - apply Exists_cons_tl, Exists_cons_hd.
    intros (kvs & ds & infos & Heq & Hds & _).
    injection Heq as <-. discriminate Hds.
Defined.

Lemma count_dataset_first_token_witness :
  count_dataset
    {| total_datasets := 2; total_size := Int 300; total_events := Int 30;
       size_by_year := {[ "2022" := Int 100; "2023" := Int 200 ]};
       count_by_year := {[ "2022" := 1%Z; "2023" := 1%Z ]} |}
    (VStr "/C/Run2022B-Run2023C/ALCARECO") (VInt 50) (VInt 5)
  = Ok {| total_datasets := 3; total_size := Int 350; total_events := Int 35;
          size_by_year := {[ "2022" := Int 150; "2023" := Int 200 ]};
          count_by_year := {[ "2022" := 2%Z; "2023" := 1%Z ]} |}.
Proof.
  destruct (count_dataset_first_token
              {| total_datasets := 2; total_size := Int 300;
                 total_events := Int 30;
                 size_by_year := {[ "2022" := Int 100; "2023" := Int 200 ]};
                 count_by_year := {[ "2022" := 1%Z; "2023" := 1%Z ]} |}
              "/C/Run2022B-Run2023C/ALCARECO" 50 5 300 30 eq_refl eq_refl)
    as (r' & -> & Hn & Hsize & Hevents & Hmaps & _).
  destruct r' as [n ts te sy cy]. cbn in Hn, Hsize, Hevents, Hmaps.
  destruct Hmaps as (Hcount & Hpresent & _).
  rewrite (Hpresent 100%Z eq_refl), Hcount, Hn, Hsize, Hevents.
  vm_compute. reflexivity.
Defined.

(** C7 as stated fails. The client exits 1 and its standard error is the
    byte 0xFF, which is no UTF-8 text: decoding it for the message raises
    [UnicodeDecodeError] inside the handler, and the exception leaves
    [get_das_data], [get_datasets] and [process_datasets]. *)
Lemma client_failure_undecodable_stderr_raises :
  subprocess_run world_undecodable (dasgoclient_args (dataset_query pattern_A))
  = Ok (failing 1 [xff])
  /\ returncode (failing 1 [xff]) <> 0%Z
  /\ get_das_data world_undecodable (dataset_query pattern_A)
     = ([], Raise UnicodeDecodeError)
  /\ outcome (get_datasets world_undecodable pattern_A) = Raise UnicodeDecodeError
  /\ outcome (process_datasets world_undecodable "PPS" [pattern_A])
     = Raise UnicodeDecodeError.
Proof.
  split; [reflexivity|]. split; [discriminate|].
  repeat split; vm_compute; reflexivity.
Qed.

Lemma client_failure_empty_aggregate_witness :
  get_das_data world_down (dataset_query pattern_A)
  = (["Error executing dasgoclient: dial tcp: connection refused"], Ok VNone)
  /\ outcome (get_datasets world_down pattern_A) = Ok []
  /\ outcome (process_datasets world_down "PPS" [pattern_A]) = Ok new_results.
Proof.
  destruct (client_failure_empty_aggregate world_down) as (Hdata & Hlist & Hgroup).
  assert (client_fails world_down pattern_A) as Hfails.
  { exists (failing 1 (list_byte_of_string "dial tcp: connection refused")),
      "dial tcp: connection refused".
    split; [reflexivity|]. split; [discriminate|]. vm_compute. reflexivity. }
  split.
  - apply (Hdata (dataset_query pattern_A)
             (failing 1 (list_byte_of_string "dial tcp: connection refused"))
             "dial tcp: connection refused");
      [reflexivity|discriminate|vm_compute; reflexivity].
  - split; [exact (Hlist pattern_A Hfails)|].
    apply (Hgroup "PPS" [pattern_A]). constructor; [exact Hfails|constructor].
Defined.

Lemma get_das_data_parse_failure_propagates_witness :
  get_das_data world_garbled (dataset_query pattern_A) = ([], Raise JSONDecodeError).
Proof.
  destruct (get_das_data_parse_failure_propagates world_garbled
              (dataset_query pattern_A) page eq_refl eq_refl) as (H & _ & _).
  - intros (text & v & _ & Hparse). discriminate Hparse.
  - exact H.
Defined.

Lemma process_datasets_deterministic_witness :
  outcome (process_datasets world_A "PPS" [pattern_A])
  = outcome (process_datasets world_A' "TkAl" [pattern_A]).
Proof.
  apply (process_datasets_deterministic world_A world_A' "PPS" "TkAl" [pattern_A]).
  - intros pattern [<-|[]]. vm_compute. reflexivity.
  - intros d Hd. vm_compute in Hd.
    destruct Hd as [<-|[<-|[]]]; vm_compute; reflexivity.
Defined.

Lemma report_prints_absent_year_witness :
  let r := {| total_datasets := 2;
              total_size := Int 300;
              total_events := Int 30;
              size_by_year := {[ "2022" := Int 100; "2023" := Int 200 ]};
              count_by_year := {[ "2022" := 1%Z; "2023" := 1%Z ]} |} in
  report_year r tt "2024"
  = (["Total number of datasets in 2024: 0";
      "Total size of datasets in 2024: 0.00 TB"], Ok tt)
  /\ In "Total number of datasets in 2024: 0"
        (printed (report_group tt ("PPS", r)))
  /\ In "Total size of datasets in 2024: 0.00 TB"
        (printed (report_group tt ("PPS", r))).
Proof.
  cbn zeta.
  assert (outcome (process_datasets world_A "PPS" [pattern_A])
          = Ok {| total_datasets := 2;
                  total_size := Int 300;
                  total_events := Int 30;
                  size_by_year := {[ "2022" := Int 100; "2023" := Int 200 ]};
                  count_by_year := {[ "2022" := 1%Z; "2023" := 1%Z ]} |}) as H
    by (vm_compute; reflexivity).
  destruct (report_prints_absent_year world_A "PPS" [pattern_A] _ "2024" H)
    as (_ & _ & Hyear & Hgroup).
  - cbn. auto.
  - assert (counted world_A [pattern_A] = [VStr name_A; VStr name_B]) as ->
      by (vm_compute; reflexivity).
    repeat constructor.
  - split; [exact Hyear|].
    apply (Hgroup tt). vm_compute. reflexivity.
Defined.

(** C10 as stated fails. The only dataset of the group is of 2022 and its
    size is 10**400 bytes: 2024 is absent from both maps, yet the quotient
    [total_size / 1024**4] is too large for a [float], the report block
    raises [OverflowError] before its first line and the lines of 2024 are
    not printed. *)
Lemma report_absent_year_not_printed :
  let r := {| total_datasets := 1;
              total_size := Int (10 ^ 400);
              total_events := Int 10;
              size_by_year := {[ "2022" := Int (10 ^ 400) ]};
              count_by_year := {[ "2022" := 1%Z ]} |} in
  outcome (process_datasets world_huge "PPS" [pattern_A]) = Ok r
  /\ Forall (fun d => in_year "2024" d = false) (counted world_huge [pattern_A])
  /\ count_by_year r !! "2024" = None
  /\ report_group tt ("PPS", r) = ([], Raise OverflowError).
Proof.
  cbn zeta. split; [vm_compute; reflexivity|].
  split; [|split; vm_compute; reflexivity].
  assert (counted world_huge [pattern_A] = [VStr name_A]) as ->
    by (vm_compute; reflexivity).
  repeat constructor.
Qed.

Lemma reporter_averages_guarded_witness :
  let r := {| total_datasets := 2;
              total_size := Int (3 * 1024 ^ 4);
              total_events := Int 4;
              size_by_year := {[ "2022" := Int (3 * 1024 ^ 4) ]};
              count_by_year := {[ "2022" := 2%Z ]} |} in
  let three := S754_finite false 6755399441055744 (-51) in
  total_size_tb r = Ok three
  /\ average_size_per_dataset_tb r three
     = Ok (SFloat (S754_finite false 6755399441055744 (-52)))
  /\ average_size_per_event_tb r three
     = Ok (SFloat (S754_finite false 6755399441055744 (-53)))
  /\ (exists lines,
        printed (report_group tt ("PPS", r))
        = lines ++ ["Average size per dataset: 1.50 TB";
                    "Average size per event: 0.750000000000 TB"])
  /\ (exists lines,
        printed (report_group tt ("PPS", new_results))
        = lines ++ ["Average size per dataset: 0.00 TB";
                    "Average size per event: 0.000000000000 TB"]).
Proof.
  cbn zeta.
  set (r := {| total_datasets := 2;
               total_size := Int (3 * 1024 ^ 4);
               total_events := Int 4;
               size_by_year := {[ "2022" := Int (3 * 1024 ^ 4) ]};
               count_by_year := {[ "2022" := 2%Z ]} |}).
  set (three := S754_finite false 6755399441055744 (-51)).
  assert (total_size_tb r = Ok three) as Htb by (vm_compute; reflexivity).
  destruct (reporter_averages_guarded r (3 * 1024 ^ 4) 4 three
              eq_refl eq_refl Htb)
    as (_ & Hd & He & _ & _ & Hreport).
  assert (total_size_tb new_results = Ok (S754_zero false)) as Hzero
    by (vm_compute; reflexivity).
  destruct (reporter_averages_guarded new_results 0 0 (S754_zero false)
              eq_refl eq_refl Hzero)
    as (_ & Hd0 & He0 & _ & _ & Hreport0).
  split; [exact Htb|].
  split; [rewrite Hd; vm_compute; reflexivity|].
  split; [rewrite He; vm_compute; reflexivity|].
  split.
  - destruct (Hreport tt "PPS" (printed (report_group tt ("PPS", r))))
      as (pd & pe & td & te & lines & Hpd & Hpe & Hfd & Hfe & Hout & _);
      [vm_compute; reflexivity|].
    exists lines. rewrite Hout.
    rewrite Hd in Hpd. vm_compute in Hpd. injection Hpd as <-.
    rewrite He in Hpe. vm_compute in Hpe. injection Hpe as <-.
    vm_compute in Hfd. injection Hfd as <-.
    vm_compute in Hfe. injection Hfe as <-.
    reflexivity.
  - destruct (Hreport0 tt "PPS"
                (printed (report_group tt ("PPS", new_results))))
      as (pd & pe & td & te & lines & Hpd & Hpe & Hfd & Hfe & Hout & Hguard);
      [vm_compute; reflexivity|].
    exists lines. rewrite Hout.
    rewrite Hd0 in Hpd. vm_compute in Hpd. injection Hpd as <-.
    rewrite He0 in Hpe. vm_compute in Hpe. injection Hpe as <-.
    rewrite (Hguard eq_refl).
    vm_compute in Hfe. injection Hfe as <-.
    reflexivity.
Defined.

(** C5 as stated fails. The only dataset has size 1 and 10**400 events:
    [total_events > 0], and dividing the size in terabytes, a [float], by
    [total_events] raises [OverflowError], because the divisor is too large
    to be converted to a [float]; the report block raises it before its
    first line. *)
Lemma reporter_average_per_event_overflows :
  let r := {| total_datasets := 1;
              total_size := Int 1;
              total_events := Int (10 ^ 400);
              size_by_year := {[ "2022" := Int 1 ]};
              count_by_year := {[ "2022" := 1%Z ]} |} in
  outcome (process_datasets world_events "PPS" [pattern_A]) = Ok r
  /\ (exists size_tb,
        total_size_tb r = Ok size_tb
        /\ average_size_per_event_tb r size_tb = Raise OverflowError)
  /\ report_group tt ("PPS", r) = ([], Raise OverflowError).
Proof.
  cbn zeta. split; [vm_compute; reflexivity|].
  split; [|vm_compute; reflexivity].
  eexists. split; vm_compute; reflexivity.
Qed.

(** * Further properties of the script *)

(** ** The adapter's contract *)

Lemma printed_bind {A B} (m : M A) (f : A -> M B) :
  printed (m ≫= f) =
  printed m ++ match outcome m with
               | Ok a => printed (f a)
               | Raise _ => []
               end.
Proof.
  destruct m as [out [a|e]]; cbn; [|rewrite app_nil_r; reflexivity].
  destruct (f a); reflexivity.
Qed.

Section Contract.

Variable w : World.

(** A [CalledProcessError] never leaves [get_das_data]: the one the check
    of the exit status raises is handled, and the handler raises none. *)
Theorem get_das_data_escapes query cp :
  outcome (get_das_data w query) <> Raise (CalledProcessError cp).
Proof.
  unfold get_das_data.
  destruct (subprocess_run w (dasgoclient_args query)) as [cp0|e0] eqn:Hrun; cbn.
  - destruct (returncode cp0 =? 0)%Z; cbn.
    + destruct (decode (stdout cp0)) as [text|e1] eqn:Hdec; cbn.
      * destruct (json_loads w text); cbn; discriminate.
      * pose proof (decode_raises _ _ Hdec) as ->. cbn. discriminate.
    + destruct (decode (stderr cp0)) as [text|e1] eqn:Hdec; cbn; [discriminate|].
      pose proof (decode_raises _ _ Hdec) as ->. discriminate.
  - destruct e0 as [cp0| | | | | | | | ]; cbn; try discriminate.
    destruct (decode (stderr cp0)) as [text|e1] eqn:Hdec; cbn; [discriminate|].
    pose proof (decode_raises _ _ Hdec) as ->. discriminate.
Qed.

(** An object other than [None] that [get_das_data] returns is what
    [json.loads] made of the standard output of a client that exited 0, and
    nothing was printed. *)
Theorem get_das_data_object query out v :
  get_das_data w query = (out, Ok v) ->
  v <> VNone ->
  out = []
  /\ exists cp text,
       subprocess_run w (dasgoclient_args query) = Ok cp
       /\ returncode cp = 0%Z
       /\ decode (stdout cp) = Ok text
       /\ json_loads w text = Some v.
Proof.
  unfold get_das_data. intros H Hv.
  destruct (subprocess_run w (dasgoclient_args query)) as [cp|e0] eqn:Hrun;
    cbn in H.
  - destruct (returncode cp =? 0)%Z eqn:Hcode; cbn in H.
    + destruct (decode (stdout cp)) as [text|e1] eqn:Hdec; cbn in H.
      * destruct (json_loads w text) as [v'|] eqn:Hparse; cbn in H;
          [|discriminate].
        injection H as <- <-. split; [reflexivity|].
        exists cp, text. apply Z.eqb_eq in Hcode. auto.
      * pose proof (decode_raises _ _ Hdec) as ->. discriminate.
    + destruct (decode (stderr cp)) as [text|e1] eqn:Hdec; cbn in H.
      * injection H as _ <-. contradiction.
      * pose proof (decode_raises _ _ Hdec) as ->. discriminate.
  - destruct e0 as [cp| | | | | | | | ]; cbn in H; try discriminate.
    destruct (decode (stderr cp)) as [text|e1] eqn:Hdec; cbn in H.
    + injection H as _ <-. contradiction.
    + pose proof (decode_raises _ _ Hdec) as ->. discriminate.
Qed.

End Contract.

(** ** The Lister and the Fetcher *)

Lemma append_names_names infos : forall names acc,
  Forall2 has_name infos names ->
  append_names infos acc = Ok (acc ++ names).
Proof.
  induction infos as [|i infos IH]; intros names acc H; inversion H; subst.
  - cbn. rewrite app_nil_r. reflexivity.
  - match goal with
    | Hi : has_name _ _ |- _ => destruct Hi as (kvs & Heq & Hn)
    end.
    subst. cbn. rewrite Hn. cbn. erewrite IH by eassumption.
    rewrite <- app_assoc. reflexivity.
Qed.

Lemma append_entries_names entries : forall namess acc,
  Forall2 lists_names entries namess ->
  append_entries entries acc = Ok (acc ++ concat namess).
Proof.
  induction entries as [|entry entries IH]; intros namess acc H; inversion H; subst.
  - cbn. rewrite app_nil_r. reflexivity.
  - match goal with
    | Hi : lists_names _ _ |- _ =>
        destruct Hi as (kvs & ds & infos & Heq & Hds & Hit & Hnames)
    end.
    subst.
    cbn [append_entries]. unfold append_entry. cbn [py_getitem].
    rewrite Hds. cbn [mbind result_bind]. rewrite Hit. cbn [mbind result_bind].
    rewrite (append_names_names _ _ _ Hnames). cbn [mbind result_bind].
    erewrite IH by eassumption. cbn [concat]. rewrite app_assoc. reflexivity.
Qed.

Lemma append_entries_error entries : forall acc e,
  append_entries entries acc = Raise e -> structural e = true.
Proof.
  induction entries as [|entry entries IH]; intros acc e H; [discriminate|].
  cbn in H. destruct (append_entry entry acc) as [acc'|e'] eqn:He; cbn in H.
  - eauto.
  - injection H as <-. eapply append_entry_error, He.
Qed.

Section Walks.

Variable w : World.

Lemma get_das_data_not_started query e :
  subprocess_run w (dasgoclient_args query) = Raise e ->
  (forall cp, e <> CalledProcessError cp) ->
  get_das_data w query = ([], Raise e).
Proof.
  intros Hrun Hne. unfold get_das_data. rewrite Hrun.
  destruct e; try reflexivity. exfalso. eapply Hne. reflexivity.
Qed.

(** When the client cannot be started for the first pattern of a group (the
    executable is missing, say), [process_datasets] raises what
    [subprocess.run] raised, after printing the query line alone: no later
    pattern is tried. *)
Theorem process_datasets_client_not_started group_name pattern patterns e :
  subprocess_run w (dasgoclient_args (dataset_query pattern)) = Raise e ->
  (forall cp, e <> CalledProcessError cp) ->
  process_datasets w group_name (pattern :: patterns)
  = ([("Executing query: " ++ dataset_query pattern)%string], Raise e).
Proof.
  intros Hrun Hne. unfold process_datasets. cbn [for_each].
  unfold process_pattern, get_datasets. cbn [print mbind M_bind].
  rewrite (get_das_data_not_started _ _ Hrun Hne). reflexivity.
Qed.

(** On a result of the expected shape [get_datasets] returns the names of
    all the records, flattened, in the order the records and their entries
    came in; it prints the query line and what the adapter printed. *)
Theorem get_datasets_flattens pattern out data entries namess :
  get_das_data w (dataset_query pattern) = (out, Ok data) ->
  truthy data = true ->
  py_iter data = Ok entries ->
  Forall2 lists_names entries namess ->
  get_datasets w pattern
  = (("Executing query: " ++ dataset_query pattern)%string :: out,
     Ok (concat namess)).
Proof.
  intros Hdata Htruthy Hit Hnames. unfold get_datasets.
  cbn [print mbind M_bind]. rewrite Hdata. cbn [mbind M_bind].
  rewrite Htruthy. cbn [negb]. rewrite Hit. cbn [mbind result_bind].
  rewrite (append_entries_names _ _ [] Hnames). cbn.
  rewrite app_nil_r. reflexivity.
Qed.

(** The Lister and the Fetcher raise nothing of their own: an exception
    leaves [get_datasets] or [get_dataset_info] exactly when it left
    [get_das_data]. *)
Theorem lister_fetcher_raise_only_adapter e :
  (forall pattern,
     outcome (get_datasets w pattern) = Raise e
     <-> outcome (get_das_data w (dataset_query pattern)) = Raise e)
  /\ (forall dataset,
        outcome (get_dataset_info w dataset) = Raise e
        <-> outcome (get_das_data w (dataset_query (format_value w dataset)))
            = Raise e).
Proof.
  split.
  - intros pattern. rewrite get_datasets_outcome.
    destruct (outcome (get_das_data w _)) as [data|e0];
      [|split; intros [= <-]; reflexivity].
    split; [|discriminate].
    destruct (truthy data); [|discriminate].
    destruct (py_iter data) as [entries|e1] eqn:Hit; cbn [mbind result_bind].
    + destruct (append_entries entries []) as [l|e1] eqn:Hw; [discriminate|].
      rewrite (append_entries_error _ _ _ Hw). discriminate.
    + rewrite (py_iter_error _ _ Hit). discriminate.
  - intros dataset. rewrite get_dataset_info_outcome.
    destruct (outcome (get_das_data w _)) as [data|e0];
      [|split; intros [= <-]; reflexivity].
    split; [|discriminate].
    destruct (truthy data); [|discriminate].
    destruct (py_iter data) as [entries|e1] eqn:Hit; cbn [mbind result_bind].
    + destruct (scan_entries entries) as [l|e1] eqn:Hw; [discriminate|].
      rewrite (scan_entries_error _ _ Hw). discriminate.
    + rewrite (py_iter_error _ _ Hit). discriminate.
Qed.

(** On an adapter result that is empty or otherwise false ([None], [[]],
    [{}], [0], [""], [False]) the Lister prints "No data found for pattern"
    and returns the empty sequence, and the Fetcher returns [(None, None)]
    without printing: the records are not walked. *)
Theorem empty_result_not_walked out data :
  truthy data = false ->
  (forall pattern,
     get_das_data w (dataset_query pattern) = (out, Ok data) ->
     get_datasets w pattern
     = (("Executing query: " ++ dataset_query pattern)%string
          :: out ++ [("No data found for pattern " ++ pattern)%string],
        Ok []))
  /\ (forall dataset,
        get_das_data w (dataset_query (format_value w dataset)) = (out, Ok data) ->
        get_dataset_info w dataset = (out, Ok (Some (VNone, VNone)))).
Proof.
  intros Hfalse. split.
  - intros pattern Hdata. unfold get_datasets. cbn [print mbind M_bind].
    rewrite Hdata. cbn [mbind M_bind]. rewrite Hfalse. reflexivity.
  - intros dataset Hdata. unfold get_dataset_info. cbn [mbind M_bind].
    rewrite Hdata. cbn [mbind M_bind]. rewrite Hfalse. cbn.
    rewrite app_nil_r. reflexivity.
Qed.

End Walks.

(** ** The aggregate in terms of the counted datasets *)

Lemma value_year_in dataset year :
  value_year dataset = Ok (Some year) -> In year years.
Proof.
  unfold value_year, years.
  destruct (py_contains "Run2022" dataset) as [[|]|]; cbn;
    [intros [= <-]; auto| |discriminate].
  destruct (py_contains "Run2023" dataset) as [[|]|]; cbn;
    [intros [= <-]; auto| |discriminate].
  destruct (py_contains "Run2024" dataset) as [[|]|]; cbn;
    [intros [= <-]; auto|discriminate|discriminate].
Qed.

Lemma aggregate_total_datasets entries : forall r,
  total_datasets (aggregate entries r)
  = (total_datasets r + Z.of_nat (length entries))%Z.
Proof.
  induction entries as [|entry entries IH]; intros r.
  - unfold aggregate. cbn. lia.
  - rewrite aggregate_cons, IH. cbn [counted_in total_datasets length]. lia.
Qed.

Lemma aggregate_count entries year : forall r,
  dd_count (count_by_year (aggregate entries r)) year
  = (dd_count (count_by_year r) year
     + Z.of_nat (length (filter (fun entry => entry.1 = Some year) entries)))%Z.
Proof.
  induction entries as [|[y se] entries IH]; intros r.
  - unfold aggregate. cbn [fold_left]. rewrite filter_nil. cbn [length]. lia.
  - rewrite aggregate_cons, IH. cbn [fst snd counted_in count_by_year].
    destruct y as [y|].
    + destruct (decide (y = year)) as [->|Hne].
      * rewrite filter_cons_True by reflexivity. unfold dd_count at 1.
        rewrite lookup_insert_eq. cbn [default from_option id length]. lia.
      * rewrite filter_cons_False by (cbn; congruence). unfold dd_count at 1.
        rewrite lookup_insert_ne by exact Hne. fold (dd_count (count_by_year r) year).
        lia.
    + rewrite filter_cons_False by (cbn; congruence). lia.
Qed.

Lemma aggregate_year_keys entries : forall r,
  Forall (fun entry => forall y, entry.1 = Some y -> In y years) entries ->
  year_keys r -> year_keys (aggregate entries r).
Proof.
  induction entries as [|[y se] entries IH]; intros r Hall Hr; [exact Hr|].
  inversion Hall as [|? ? Hy Hrest]; subst. rewrite aggregate_cons.
  apply IH; [exact Hrest|]. cbn [fst snd] in *. destruct y as [y|]; [|exact Hr].
  intros year. cbn [counted_in size_by_year count_by_year].
  destruct (decide (y = year)) as [->|Hne].
  - rewrite !lookup_insert_eq. split; [split; discriminate|]. auto.
  - rewrite !lookup_insert_ne by exact Hne. apply Hr.
Qed.

Section Counts.

Variable w : World.

Lemma fetched_length datasets :
  Forall (fun d => is_Some (fetched w d)) datasets ->
  length (omap (fetched w) datasets) = length datasets.
Proof.
  induction 1 as [|d datasets [entry Hf] _ IH]; [reflexivity|].
  cbn [omap list_omap]. rewrite Hf. cbn [length]. f_equal. exact IH.
Qed.

Lemma fetched_in_year datasets year :
  Forall (fun d => is_Some (fetched w d)) datasets ->
  length (filter (fun entry => entry.1 = Some year) (omap (fetched w) datasets))
  = length (filter (fun d => in_year year d = true) datasets).
Proof.
  induction 1 as [|d datasets [entry Hf] _ IH]; [reflexivity|].
  cbn [omap list_omap]. rewrite Hf.
  pose proof (fetched_year _ _ _ Hf) as Hy.
  destruct (decide (entry.1 = Some year)) as [Heq|Hne].
  - rewrite filter_cons_True by exact Heq.
    rewrite filter_cons_True; [cbn [length]; f_equal; exact IH|].
    unfold in_year. rewrite Hy, Heq. apply String.eqb_refl.
  - rewrite filter_cons_False by exact Hne.
    rewrite filter_cons_False; [exact IH|].
    unfold in_year. rewrite Hy. destruct entry.1 as [y|]; [|discriminate].
    intros Heq. apply String.eqb_eq in Heq. congruence.
Qed.

Lemma fetched_years datasets :
  Forall (fun d => is_Some (fetched w d)) datasets ->
  Forall (fun entry => forall y, entry.1 = Some y -> In y years)
    (omap (fetched w) datasets).
Proof.
  induction 1 as [|d datasets [entry Hf] _ IH]; [constructor|].
  cbn [omap list_omap]. rewrite Hf. constructor; [|exact IH].
  intros y Hy. pose proof (fetched_year _ _ _ Hf) as Hv. rewrite Hy in Hv.
  eapply value_year_in, Hv.
Qed.

(** [total_datasets] is the number of listed datasets whose fetched size and
    events are both not [None]; a dataset listed twice is counted twice. *)
Theorem total_datasets_counts group_name patterns r :
  outcome (process_datasets w group_name patterns) = Ok r ->
  total_datasets r = Z.of_nat (length (counted w patterns)).
Proof.
  intros H. apply process_datasets_aggregate in H as [Hall ->].
  rewrite aggregate_total_datasets, (fetched_length _ Hall). reflexivity.
Qed.

(** For every year the count read from [count_by_year] (0 when the year is
    absent) is the number of counted datasets whose first year token is that
    year. *)
Theorem count_by_year_counts group_name patterns r year :
  outcome (process_datasets w group_name patterns) = Ok r ->
  dd_count (count_by_year r) year
  = Z.of_nat (length (filter (fun d => in_year year d = true)
                        (counted w patterns))).
Proof.
  intros H. apply process_datasets_aggregate in H as [Hall ->].
  rewrite aggregate_count, (fetched_in_year _ _ Hall). reflexivity.
Qed.

(** The two year maps of a returned aggregate have the same keys, and every
    key is one of "2022", "2023", "2024". *)
Theorem year_maps_same_keys group_name patterns r year :
  outcome (process_datasets w group_name patterns) = Ok r ->
  (size_by_year r !! year = None <-> count_by_year r !! year = None)
  /\ (count_by_year r !! year <> None -> In year ["2022"; "2023"; "2024"]).
Proof.
  intros H. apply process_datasets_aggregate in H as [Hall ->].
  apply (aggregate_year_keys _ new_results (fetched_years _ Hall)).
  intros y. split; [split; reflexivity|]. intros Hy. exfalso. apply Hy. reflexivity.
Qed.

(** A dataset for which the Fetcher returns a pair with [None] as size or as
    events is skipped: the loop over a listing ends as it does over the
    listing without that dataset. *)
Theorem dataset_without_metadata_skipped dataset size events before after r :
  outcome (get_dataset_info w dataset) = Ok (Some (size, events)) ->
  size = VNone \/ events = VNone ->
  outcome (for_each (process_dataset w) (before ++ dataset :: after) r)
  = outcome (for_each (process_dataset w) (before ++ after) r).
Proof.
  intros Hinfo Hnone. rewrite !for_each_app_outcome.
  destruct (outcome (for_each (process_dataset w) before r)) as [r1|e];
    [|reflexivity].
  cbn [for_each]. rewrite outcome_bind, process_dataset_outcome, Hinfo.
  assert (negb (is_none size) && negb (is_none events) = false) as ->;
    [|reflexivity].
  destruct Hnone as [-> | ->]; [reflexivity|].
  destruct (is_none size); reflexivity.
Qed.

End Counts.

(** ** Sums of integer metadata *)

Lemma aggregate_totals_int entries : forall r size events,
  Forall int_entry entries ->
  total_size r = Int size ->
  total_events r = Int events ->
  total_size (aggregate entries r)
  = Int (size + sum_list (map entry_size entries))
  /\ total_events (aggregate entries r)
     = Int (events + sum_list (map entry_events entries)).
Proof.
  induction entries as [|[y [s e]] entries IH]; intros r size events Hall Hs He.
  - unfold aggregate. cbn. rewrite Hs, He, !Z.add_0_r. split; reflexivity.
  - inversion Hall as [|? ? (s' & e' & Heq) Hrest]; subst.
    cbn [fst snd] in Heq. injection Heq as -> ->.
    rewrite aggregate_cons. cbn [fst snd].
    destruct (IH (counted_in r y (Int s') (Int e')) (size + s')%Z (events + e')%Z
                Hrest) as [-> ->].
    + cbn [counted_in total_size]. rewrite Hs. reflexivity.
    + cbn [counted_in total_events]. rewrite He. reflexivity.
    + cbn [map sum_list foldr entry_size entry_events fst snd].
      fold (sum_list (map entry_size entries)).
      fold (sum_list (map entry_events entries)).
      split; f_equal; lia.
Qed.

Lemma aggregate_size_int entries year : forall r size,
  Forall int_entry entries ->
  dd_size (size_by_year r) year = Int size ->
  dd_size (size_by_year (aggregate entries r)) year
  = Int (size + sum_list (map entry_size
                            (filter (fun entry => entry.1 = Some year) entries))).
Proof.
  induction entries as [|[y [s e]] entries IH]; intros r size Hall Hs.
  - unfold aggregate. cbn [fold_left]. rewrite filter_nil. cbn.
    rewrite Hs, Z.add_0_r. reflexivity.
  - inversion Hall as [|? ? (s' & e' & Heq) Hrest]; subst.
    cbn [fst snd] in Heq. injection Heq as -> ->.
    rewrite aggregate_cons. cbn [fst snd]. destruct y as [y|].
    + destruct (decide (y = year)) as [->|Hne].
      * rewrite filter_cons_True by reflexivity.
        rewrite (IH _ (size + s')%Z Hrest).
        -- cbn [map sum_list foldr entry_size fst snd].
           fold (sum_list (map entry_size
                   (filter (fun entry => entry.1 = Some year) entries))).
           f_equal. lia.
        -- cbn [counted_in size_by_year]. unfold dd_size at 1.
           rewrite lookup_insert_eq. cbn [default from_option id].
           rewrite Hs. reflexivity.
      * rewrite filter_cons_False by (cbn; congruence).
        apply IH; [exact Hrest|]. cbn [counted_in size_by_year].
        unfold dd_size. rewrite lookup_insert_ne by exact Hne. exact Hs.
    + rewrite filter_cons_False by (cbn; congruence).
      apply IH; [exact Hrest|exact Hs].
Qed.

Section Sums.

Variable w : World.

Lemma int_metadata_entries datasets :
  Forall (int_metadata w) datasets ->
  Forall int_entry (omap (fetched w) datasets).
Proof.
  induction 1 as [|d datasets (entry & Hf & Hint) _ IH]; [constructor|].
  cbn [omap list_omap]. rewrite Hf. constructor; assumption.
Qed.

Lemma fetched_map_sum (f : option string * (number * number) -> Z) datasets :
  sum_list (map f (omap (fetched w) datasets))
  = sum_list (map (fun d => from_option f 0%Z (fetched w d)) datasets).
Proof.
  induction datasets as [|d datasets IH]; [reflexivity|].
  cbn [omap list_omap map]. destruct (fetched w d) as [entry|]; cbn.
  - fold (sum_list (map f (omap (fetched w) datasets))).
    fold (sum_list (map (fun d => from_option f 0%Z (fetched w d)) datasets)).
    rewrite IH. reflexivity.
  - fold (sum_list (map (fun d => from_option f 0%Z (fetched w d)) datasets)).
    rewrite <- IH. reflexivity.
Qed.

Lemma fetched_filter_year datasets year :
  Forall (fun d => is_Some (fetched w d)) datasets ->
  filter (fun entry => entry.1 = Some year) (omap (fetched w) datasets)
  = omap (fetched w) (filter (fun d => in_year year d = true) datasets).
Proof.
  induction 1 as [|d datasets [entry Hf] _ IH]; [reflexivity|].
  cbn [omap list_omap]. rewrite Hf.
  pose proof (fetched_year _ _ _ Hf) as Hy.
  destruct (decide (entry.1 = Some year)) as [Heq|Hne].
  - rewrite filter_cons_True by exact Heq.
    rewrite filter_cons_True;
      [|unfold in_year; rewrite Hy, Heq; apply String.eqb_refl].
    cbn [omap list_omap]. rewrite Hf, IH. reflexivity.
  - rewrite filter_cons_False by exact Hne.
    rewrite filter_cons_False; [exact IH|].
    unfold in_year. rewrite Hy. destruct entry.1 as [y|]; [|discriminate].
    intros Heq. apply String.eqb_eq in Heq. congruence.
Qed.

(** When the fetched size and events of every counted dataset are [int],
    [total_size] and [total_events] are the integer sums of the sizes and of
    the events of the counted datasets. *)
Theorem totals_are_integer_sums group_name patterns r :
  outcome (process_datasets w group_name patterns) = Ok r ->
  Forall (int_metadata w) (counted w patterns) ->
  total_size r = Int (sum_list (map (fetched_size w) (counted w patterns)))
  /\ total_events r
     = Int (sum_list (map (fetched_events w) (counted w patterns))).
Proof.
  intros H Hint. apply process_datasets_aggregate in H as [_ ->].
  destruct (aggregate_totals_int _ new_results 0 0
              (int_metadata_entries _ Hint) eq_refl eq_refl) as [-> ->].
  rewrite !fetched_map_sum. split; reflexivity.
Qed.

(** When the fetched size and events of every counted dataset are [int],
    the size read from [size_by_year] for a year (0 when the year is absent)
    is the integer sum of the sizes of the counted datasets whose first year
    token is that year. *)
Theorem size_by_year_is_integer_sum group_name patterns r year :
  outcome (process_datasets w group_name patterns) = Ok r ->
  Forall (int_metadata w) (counted w patterns) ->
  dd_size (size_by_year r) year
  = Int (sum_list (map (fetched_size w)
                     (filter (fun d => in_year year d = true)
                        (counted w patterns)))).
Proof.
  intros H Hint. apply process_datasets_aggregate in H as [Hall ->].
  rewrite (aggregate_size_int _ year new_results 0
             (int_metadata_entries _ Hint) eq_refl).
  rewrite (fetched_filter_year _ _ Hall), fetched_map_sum. reflexivity.
Qed.

End Sums.

(** ** When the fold completes, and in which order *)

Lemma num_add_swap a b c :
  num_add (num_add a (Int b)) (Int c) = num_add (num_add a (Int c)) (Int b).
Proof.
  destruct a as [z|q]; cbn.
  - f_equal. lia.
  - f_equal. apply Qred_complete. rewrite !Qred_correct. ring.
Qed.

Lemma counted_in_swap r y1 s1 e1 y2 s2 e2 :
  counted_in (counted_in r y1 (Int s1) (Int e1)) y2 (Int s2) (Int e2)
  = counted_in (counted_in r y2 (Int s2) (Int e2)) y1 (Int s1) (Int e1).
Proof.
  unfold counted_in.
  cbn [total_datasets total_size total_events size_by_year count_by_year].
  f_equal.
  - apply num_add_swap.
  - apply num_add_swap.
  - destruct y1 as [y1|], y2 as [y2|]; try reflexivity.
    destruct (decide (y1 = y2)) as [->|Hne].
    + unfold dd_size. rewrite !lookup_insert_eq, !insert_insert_eq.
      cbn [default from_option id]. f_equal. apply num_add_swap.
    + unfold dd_size. rewrite !lookup_insert_ne by congruence.
      apply insert_insert_ne. congruence.
  - destruct y1 as [y1|], y2 as [y2|]; try reflexivity.
    destruct (decide (y1 = y2)) as [->|Hne].
    + unfold dd_count. rewrite !lookup_insert_eq, !insert_insert_eq.
      cbn [default from_option id]. reflexivity.
    + unfold dd_count. rewrite !lookup_insert_ne by congruence.
      apply insert_insert_ne. congruence.
Qed.

Lemma aggregate_permutation entries entries' :
  entries ≡ₚ entries' ->
  Forall int_entry entries ->
  forall r, aggregate entries r = aggregate entries' r.
Proof.
  induction 1 as [|x l l' _ IH|x y l|l l' l'' Hp1 IH1 Hp2 IH2]; intros Hall r.
  - reflexivity.
  - rewrite !aggregate_cons. apply IH. inversion Hall; assumption.
  - rewrite !aggregate_cons.
    inversion Hall as [|? ? (sy & ey & Hy) Hrest]; subst.
    inversion Hrest as [|? ? (sx & ex & Hx) _]; subst.
    destruct x as [yx [? ?]], y as [yy [? ?]]. cbn [fst snd] in *.
    injection Hx as -> ->. injection Hy as -> ->.
    rewrite counted_in_swap. reflexivity.
  - rewrite IH1 by exact Hall. apply IH2. rewrite <- Hp1. exact Hall.
Qed.

Section Completion.

Variable w : World.

Lemma process_dataset_completes r dataset :
  (exists r', outcome (process_dataset w r dataset) = Ok r')
  <-> dataset_ok w dataset.
Proof.
  rewrite process_dataset_outcome. unfold dataset_ok. split.
  - intros [r' H].
    destruct (outcome (get_dataset_info w dataset)) as [[[size events]|]|e];
      try discriminate.
    exists size, events. split; [reflexivity|].
    destruct (is_none size), (is_none events); cbn in *; auto.
    apply count_dataset_ok in H as (s & e & year & Hs & He & Hy & _).
    right. eauto 6.
  - intros (size & events & -> & Hok).
    destruct Hok as [Hnone|(s & e & year & Hs & He & Hy)].
    + destruct (is_none size), (is_none events); cbn in *; eauto; discriminate.
    + destruct (negb (is_none size) && negb (is_none events)); [|eauto].
      rewrite (count_dataset_counted _ _ _ _ _ _ _ Hs He Hy). eauto.
Qed.

Lemma for_each_dataset_completes datasets : forall r,
  (exists r', outcome (for_each (process_dataset w) datasets r) = Ok r')
  <-> Forall (dataset_ok w) datasets.
Proof.
  induction datasets as [|d datasets IH]; intros r.
  - split; [constructor|]. intros _. exists r. reflexivity.
  - cbn [for_each]. rewrite outcome_bind. split.
    + intros [r' H].
      destruct (outcome (process_dataset w r d)) as [r1|e] eqn:Hd; [|discriminate].
      constructor; [apply (process_dataset_completes r); eauto|].
      apply (IH r1). eauto.
    + intros Hall. inversion Hall as [|? ? Hd Hrest]; subst.
      apply (process_dataset_completes r) in Hd as [r1 ->]. apply IH, Hrest.
Qed.

Lemma for_each_pattern_completes group_name patterns : forall r,
  (exists r', outcome (for_each (process_pattern w group_name) patterns r) = Ok r')
  <-> Forall (pattern_ok w) patterns.
Proof.
  induction patterns as [|p patterns IH]; intros r.
  - split; [constructor|]. intros _. exists r. reflexivity.
  - cbn [for_each]. rewrite outcome_bind, process_pattern_outcome. split.
    + intros [r' H].
      destruct (outcome (get_datasets w p)) as [datasets|e] eqn:Hp; [|discriminate].
      destruct (outcome (for_each (process_dataset w) datasets r)) as [r1|e] eqn:Hd;
        [|discriminate].
      constructor; [|apply (IH r1); eauto].
      exists datasets. split; [exact Hp|].
      apply (for_each_dataset_completes datasets r). eauto.
    + intros Hall. inversion Hall as [|? ? (datasets & Hp & Hd) Hrest]; subst.
      rewrite Hp.
      apply (for_each_dataset_completes datasets r) in Hd as [r1 ->].
      apply IH, Hrest.
Qed.

Lemma counted_app patterns1 patterns2 :
  counted w (patterns1 ++ patterns2)
  = counted w patterns1 ++ counted w patterns2.
Proof. unfold counted, listed. rewrite flat_map_app, filter_app. reflexivity. Qed.

Lemma counted_permutation patterns patterns' :
  patterns ≡ₚ patterns' -> counted w patterns ≡ₚ counted w patterns'.
Proof.
  intros Hp. unfold counted, listed. apply filter_Permutation.
  apply Permutation_flat_map, Hp.
Qed.

(** When [process_datasets] returns an aggregate, for every pattern the
    Lister returned and, for every dataset it listed, the Fetcher returned a
    pair of which either a component is [None] or both are numbers, the
    dataset name being an object [in] can test (a [str], a [list] or a
    [dict]). Conversely, when this holds and the size and the events of every
    counted dataset are [int], [process_datasets] returns an aggregate. *)
Theorem process_datasets_returns group_name patterns :
  ((exists r, outcome (process_datasets w group_name patterns) = Ok r) ->
   Forall (pattern_ok w) patterns)
  /\ (Forall (pattern_ok w) patterns ->
      Forall (int_metadata w) (counted w patterns) ->
      exists r,
        outcome (process_datasets w group_name patterns) = Ok r
        /\ total_datasets r = Z.of_nat (length (counted w patterns))
        /\ total_size r
           = Int (sum_list (map (fetched_size w) (counted w patterns)))
        /\ total_events r
           = Int (sum_list (map (fetched_events w) (counted w patterns)))).
Proof.
  split.
  - apply for_each_pattern_completes.
  - intros Hok Hint.
    apply (for_each_pattern_completes group_name patterns new_results) in Hok
      as [r H].
    exists r. split; [exact H|].
    apply process_datasets_aggregate in H as [Hall ->].
    rewrite aggregate_total_datasets, fetched_length by exact Hall.
    destruct (aggregate_totals_int _ new_results 0 0
                (int_metadata_entries w _ Hint) eq_refl eq_refl) as [-> ->].
    rewrite !fetched_map_sum. cbn [new_results total_datasets].
    split; [lia|]. split; reflexivity.
Qed.

(** With integer metadata the aggregate does not depend on the order of the
    patterns: if [process_datasets] returns an aggregate for a list of
    patterns, it returns the same aggregate for every permutation of it. *)
Theorem process_datasets_pattern_order group_name patterns patterns' r :
  patterns ≡ₚ patterns' ->
  outcome (process_datasets w group_name patterns) = Ok r ->
  Forall (int_metadata w) (counted w patterns) ->
  outcome (process_datasets w group_name patterns') = Ok r.
Proof.
  intros Hp H Hint.
  assert (Forall (pattern_ok w) patterns') as Hok.
  { rewrite <- Hp. apply (for_each_pattern_completes group_name patterns new_results).
    eauto. }
  apply (for_each_pattern_completes group_name patterns' new_results) in Hok
    as [r' H'].
  unfold process_datasets. rewrite H'. f_equal.
  apply process_datasets_aggregate in H as [_ ->], H' as [_ ->].
  symmetry. apply aggregate_permutation.
  - apply omap_Permutation, counted_permutation, Hp.
  - apply int_metadata_entries, Hint.
Qed.

(** Aggregating two lists of patterns in one group counts what the two
    groups count apart: when [process_datasets] returns for each of the two
    lists and the size and the events of the counted datasets are [int], it
    returns for their concatenation, and the total number of datasets, the
    total size, the total number of events and the count of every year are
    the sums of the two. *)
Theorem process_datasets_concatenation group1 group2 group patterns1 patterns2
    r1 r2 :
  outcome (process_datasets w group1 patterns1) = Ok r1 ->
  outcome (process_datasets w group2 patterns2) = Ok r2 ->
  Forall (int_metadata w) (counted w patterns1) ->
  Forall (int_metadata w) (counted w patterns2) ->
  exists r size1 size2 events1 events2,
    outcome (process_datasets w group (patterns1 ++ patterns2)) = Ok r
    /\ total_datasets r = (total_datasets r1 + total_datasets r2)%Z
    /\ total_size r1 = Int size1 /\ total_size r2 = Int size2
    /\ total_size r = Int (size1 + size2)
    /\ total_events r1 = Int events1 /\ total_events r2 = Int events2
    /\ total_events r = Int (events1 + events2)
    /\ forall year,
         dd_count (count_by_year r) year
         = (dd_count (count_by_year r1) year
            + dd_count (count_by_year r2) year)%Z.
Proof.
  intros H1 H2 Hint1 Hint2.
  assert (Forall (pattern_ok w) (patterns1 ++ patterns2)) as Hok.
  { apply Forall_app. split.
    - apply (for_each_pattern_completes group1 patterns1 new_results). eauto.
    - apply (for_each_pattern_completes group2 patterns2 new_results). eauto. }
  apply (for_each_pattern_completes group (patterns1 ++ patterns2) new_results)
    in Hok as [r H].
  assert (Forall (int_metadata w) (counted w (patterns1 ++ patterns2))) as Hint.
  { rewrite counted_app. apply Forall_app. split; assumption. }
  exists r,
    (sum_list (map (fetched_size w) (counted w patterns1))),
    (sum_list (map (fetched_size w) (counted w patterns2))),
    (sum_list (map (fetched_events w) (counted w patterns1))),
    (sum_list (map (fetched_events w) (counted w patterns2))).
  split; [exact H|].
  apply process_datasets_aggregate in H as [Hall ->], H1 as [Hall1 ->],
    H2 as [Hall2 ->].
  destruct (aggregate_totals_int _ new_results 0 0
              (int_metadata_entries w _ Hint) eq_refl eq_refl) as [Hs He].
  destruct (aggregate_totals_int _ new_results 0 0
              (int_metadata_entries w _ Hint1) eq_refl eq_refl) as [Hs1 He1].
  destruct (aggregate_totals_int _ new_results 0 0
              (int_metadata_entries w _ Hint2) eq_refl eq_refl) as [Hs2 He2].
  rewrite !fetched_map_sum in Hs, He, Hs1, He1, Hs2, He2.
  rewrite Hs, He, Hs1, He1, Hs2, He2.
  rewrite counted_app in *. apply Forall_app in Hall as [_ _].
  split.
  { rewrite !aggregate_total_datasets, !fetched_length, length_app
      by (try apply Forall_app; auto).
    cbn [new_results total_datasets]. lia. }
  assert (forall (f : value -> Z) l1 l2,
            sum_list (map f (l1 ++ l2))
            = (sum_list (map f l1) + sum_list (map f l2))%Z) as Hsum.
  { intros f l1 l2. induction l1 as [|x l1 IH]; [reflexivity|].
    cbn [app map sum_list foldr].
    fold (sum_list (map f (l1 ++ l2))). fold (sum_list (map f l1)).
    rewrite IH. lia. }
  rewrite !Hsum.
  repeat (split; [reflexivity|]).
  intros year. rewrite !aggregate_count, !fetched_in_year, filter_app, length_app
    by (try apply Forall_app; auto).
  cbn [new_results count_by_year]. unfold dd_count. rewrite lookup_empty.
  cbn [default from_option id]. lia.
Qed.

End Completion.

(** ** [main] *)

Lemma printed_lift {A} (r : result A) : printed (lift r) = [].
Proof. reflexivity. Qed.

Lemma printed_try_except {A} (body : M A) classes handler :
  printed (try_except body classes handler) =
  printed body ++ match outcome body with
                  | Ok _ => []
                  | Raise e => if classes e then printed (handler e) else []
                  end.
Proof.
  destruct body as [out [a|e]]; cbn; [rewrite app_nil_r; reflexivity|].
  destruct (classes e); [|rewrite app_nil_r; reflexivity].
  destruct (handler e); reflexivity.
Qed.

Lemma Forall_printed_bind {A B} (P : string -> Prop) (m : M A) (f : A -> M B) :
  Forall P (printed m) ->
  (forall a, Forall P (printed (f a))) ->
  Forall P (printed (m ≫= f)).
Proof.
  intros Hm Hf. rewrite printed_bind. apply Forall_app. split; [exact Hm|].
  destruct (outcome m); [apply Hf|constructor].
Qed.

Lemma Forall_printed_for_each {A S} (P : string -> Prop) (body : S -> A -> M S) l :
  (forall s x, Forall P (printed (body s x))) ->
  forall s, Forall P (printed (for_each body l s)).
Proof.
  intros Hbody. induction l as [|x l IH]; intros s; [constructor|].
  cbn [for_each]. apply Forall_printed_bind; [apply Hbody|apply IH].
Qed.

Lemma filter_none (f : string -> bool) l :
  Forall (fun line => f line = false) l -> List.filter f l = [].
Proof.
  induction 1 as [|x l Hx _ IH]; [reflexivity|]. cbn. rewrite Hx. exact IH.
Qed.

Lemma is_header_header group_name :
  is_header (newline ++ "Group: " ++ group_name)%string = true.
Proof. apply prefix_app. exists group_name. reflexivity. Qed.

Section Main.

Variable w : World.

Lemma get_das_data_quiet query : Forall quiet (printed (get_das_data w query)).
Proof.
  unfold get_das_data. rewrite printed_try_except.
  apply Forall_app. split.
  - apply Forall_printed_bind; [constructor|]. intros cp.
    destruct (negb _); [constructor|].
    apply Forall_printed_bind; [constructor|]. intros text.
    destruct (json_loads w text); constructor.
  - destruct (outcome _) as [v|[cp| | | | | | | | ]]; try constructor.
    apply Forall_printed_bind; [constructor|]. intros text.
    repeat constructor.
Qed.

Lemma get_datasets_quiet pattern : Forall quiet (printed (get_datasets w pattern)).
Proof.
  unfold get_datasets. apply Forall_printed_bind; [repeat constructor|].
  intros _. apply Forall_printed_bind; [apply get_das_data_quiet|].
  intros data. destruct (negb (truthy data)); [repeat constructor|].
  rewrite printed_try_except. apply Forall_app. split; [constructor|].
  destruct (outcome _) as [l|e]; [constructor|].
  destruct (structural e); repeat constructor.
Qed.

Lemma get_dataset_info_quiet dataset :
  Forall quiet (printed (get_dataset_info w dataset)).
Proof.
  unfold get_dataset_info. apply Forall_printed_bind; [apply get_das_data_quiet|].
  intros data. destruct (negb (truthy data)); [constructor|].
  rewrite printed_try_except. apply Forall_app. split; [constructor|].
  destruct (outcome _) as [l|e]; [constructor|].
  destruct (structural e); repeat constructor.
Qed.

Lemma process_datasets_quiet group_name patterns :
  Forall quiet (printed (process_datasets w group_name patterns)).
Proof.
  unfold process_datasets. apply Forall_printed_for_each. intros r pattern.
  unfold process_pattern. apply Forall_printed_bind; [apply get_datasets_quiet|].
  intros datasets. apply Forall_printed_for_each. intros r' d.
  unfold process_dataset. apply Forall_printed_bind; [apply get_dataset_info_quiet|].
  intros [[size events]|]; [|constructor].
  destruct (_ && _); constructor.
Qed.

Lemma process_groups_quiet groups : forall acc,
  Forall quiet (printed (for_each (process_group w) groups acc)).
Proof.
  apply Forall_printed_for_each. intros acc [group_name patterns].
  unfold process_group. apply Forall_printed_bind; [apply process_datasets_quiet|].
  constructor.
Qed.

Lemma process_groups_names groups : forall acc res,
  outcome (for_each (process_group w) groups acc) = Ok res ->
  map fst res = map fst acc ++ map fst groups.
Proof.
  induction groups as [|[g ps] groups IH]; intros acc res H.
  - injection H as <-. rewrite app_nil_r. reflexivity.
  - cbn [for_each] in H. rewrite outcome_bind in H. unfold process_group at 1 in H.
    rewrite outcome_bind in H.
    destruct (outcome (process_datasets w g ps)) as [r|e]; [|discriminate].
    apply IH in H. rewrite H, map_app, <- app_assoc. reflexivity.
Qed.

Lemma process_groups_raises groups : forall acc,
  Exists (fun entry =>
            exists e, outcome (process_datasets w entry.1 entry.2) = Raise e)
    groups ->
  exists e, outcome (for_each (process_group w) groups acc) = Raise e.
Proof.
  induction groups as [|[g ps] groups IH]; intros acc H; [inversion H|].
  cbn [for_each]. rewrite outcome_bind. unfold process_group at 1.
  rewrite outcome_bind.
  destruct (outcome (process_datasets w g ps)) as [r|e] eqn:Hg; [|eauto].
  cbn [mret M_ret outcome snd]. apply IH.
  inversion H as [? ? [e He]|]; subst; [|assumption].
  cbn [fst snd] in He. congruence.
Qed.

Lemma report_group_state state entry : report_group state entry = report_group tt entry.
Proof. destruct state. reflexivity. Qed.

Lemma report_group_header state group_name r :
  outcome (report_group state (group_name, r)) = Ok tt ->
  List.filter is_header (printed (report_group state (group_name, r)))
  = [(newline ++ "Group: " ++ group_name)%string].
Proof.
  destruct (report_group state (group_name, r)) as [out [[]|e]] eqn:H;
    [|discriminate].
  intros _. apply report_group_returns in H
    as (tb & s22 & s23 & s24 & pd & pe & td & te & _ & _ & _ & _ & _ & _ & _ & _
        & ->).
  unfold printed, report_lines, year_lines. cbn [fst app List.filter].
  rewrite is_header_header. reflexivity.
Qed.

Lemma report_groups_complete res : forall state,
  outcome (for_each report_group res state) = Ok tt
  <-> Forall (fun entry => outcome (report_group tt entry) = Ok tt) res.
Proof.
  induction res as [|entry res IH]; intros state.
  - destruct state. split; [constructor|reflexivity].
  - cbn [for_each]. rewrite outcome_bind, (report_group_state state). split.
    + destruct (outcome (report_group tt entry)) as [[]|e] eqn:He; [|discriminate].
      intros H. constructor; [exact He|]. apply (IH tt), H.
    + intros H. inversion H as [|? ? He Hrest]; subst.
      rewrite He. apply IH, Hrest.
Qed.

Lemma report_groups_headers res : forall state,
  outcome (for_each report_group res state) = Ok tt ->
  List.filter is_header (printed (for_each report_group res state))
  = map (fun entry => (newline ++ "Group: " ++ entry.1)%string) res.
Proof.
  induction res as [|[g r] res IH]; intros state H; [reflexivity|].
  cbn [for_each] in H |- *. rewrite outcome_bind in H. rewrite printed_bind.
  destruct (outcome (report_group state (g, r))) as [[]|e] eqn:He;
    [|discriminate].
  rewrite List.filter_app, (report_group_header state g r He), (IH tt H).
  reflexivity.
Qed.

Lemma main_loops groups : forall acc,
  match outcome (for_each (process_group w) groups acc) with
  | Ok res => outcome (for_each report_group res tt)
  | Raise e => Raise e
  end = Ok tt
  <-> Forall (fun entry => outcome (report_group tt entry) = Ok tt) acc
      /\ Forall (group_reported w) groups.
Proof.
  induction groups as [|[g ps] groups IH]; intros acc.
  - cbn [for_each mret M_ret outcome snd]. rewrite report_groups_complete.
    split; [intros H; split; [exact H|constructor]|intros [H _]; exact H].
  - cbn [for_each]. rewrite outcome_bind. unfold process_group at 1.
    rewrite outcome_bind.
    destruct (outcome (process_datasets w g ps)) as [r|e] eqn:Hg.
    + cbn [mret M_ret outcome snd]. rewrite IH, Forall_app.
      split.
      * intros [[Hacc Hr] Hrest]. inversion Hr; subst.
        split; [exact Hacc|]. constructor; [|exact Hrest].
        exists r. split; assumption.
      * intros [Hacc Hall].
        inversion Hall as [|? ? (r' & Hr' & Hrep) Hrest]; subst.
        cbn [fst snd] in Hr', Hrep.
        rewrite Hg in Hr'. injection Hr' as <-.
        split; [|exact Hrest]. split; [exact Hacc|].
        constructor; [exact Hrep|constructor].
    + split; [discriminate|].
      intros [_ Hall]. inversion Hall as [|? ? (r' & Hr' & _) _]; subst.
      cbn [fst snd] in Hr'. congruence.
Qed.

(** [main] runs to its end exactly when, for each of the five groups,
    [process_datasets] returns an aggregate and the report block of that
    aggregate is printed to its end. Otherwise an exception leaves
    [main]. *)
Theorem main_completes_iff :
  outcome (main w) = Ok tt <-> Forall (group_reported w) group_patterns.
Proof.
  unfold main. rewrite outcome_bind, (main_loops group_patterns []).
  split; [intros [_ H]; exact H|intros H; split; [constructor|exact H]].
Qed.

(** All the groups are processed before anything is reported: when
    [process_datasets] raises for one of the groups, an exception leaves
    [main] and no report block has been printed, not even for the groups
    that were processed before the failure. *)
Theorem main_failure_reports_nothing :
  Exists (fun entry =>
            exists e, outcome (process_datasets w entry.1 entry.2) = Raise e)
    group_patterns ->
  (exists e, outcome (main w) = Raise e)
  /\ Forall (fun line => is_header line = false) (printed (main w)).
Proof.
  intros H. apply (process_groups_raises group_patterns []) in H as [e He].
  unfold main. rewrite outcome_bind, printed_bind, He.
  split; [eauto|]. rewrite app_nil_r. apply process_groups_quiet.
Qed.

(** When [main] runs to its end it prints one report block per group, in
    the order of [group_patterns]: the header lines of the output are those
    of PPS, TkAl, BRIL, ECAL and Pixel, in this order. *)
Theorem main_reports_groups_in_order :
  outcome (main w) = Ok tt ->
  List.filter is_header (printed (main w))
  = map (fun entry => (newline ++ "Group: " ++ entry.1)%string) group_patterns.
Proof.
  unfold main. rewrite outcome_bind, printed_bind.
  pose proof (process_groups_quiet group_patterns []) as Hquiet.
  destruct (outcome (for_each (process_group w) group_patterns [])) as [res|e0] eqn:H;
    [|discriminate].
  intros Hreport. rewrite List.filter_app, (filter_none _ _ Hquiet).
  rewrite (report_groups_headers res tt Hreport).
  apply process_groups_names in H. cbn [app map] in H |- *.
  rewrite <- !(map_map fst (fun g => (newline ++ "Group: " ++ g)%string)), H.
  reflexivity.
Qed.

End Main.

(** ** The walk that finds nothing *)

Section Unpacking.

Variable w : World.


End Unpacking.

(** ** The further properties on concrete catalogues *)

Lemma get_das_data_object_witness :
  exists cp text,
    subprocess_run world_A (dasgoclient_args (dataset_query pattern_A)) = Ok cp
    /\ returncode cp = 0%Z
    /\ decode (stdout cp) = Ok text
    /\ json_loads world_A text = Some listing_A.
Proof.
  apply (get_das_data_object world_A (dataset_query pattern_A) [] listing_A).
  - vm_compute. reflexivity.
  - discriminate.
Defined.

Lemma process_datasets_client_not_started_witness :
  process_datasets world_absent "PPS" [pattern_A; pattern_B]
  = (["Executing query: dataset dataset=/*/Run202*/ALCARECO instance=prod/global"],
     Raise OSError).
Proof.
  apply (process_datasets_client_not_started world_absent "PPS" pattern_A
           [pattern_B] OSError).
  - reflexivity.
  - discriminate.
Defined.

Lemma get_datasets_flattens_witness :
  get_datasets world_A pattern_A
  = (["Executing query: dataset dataset=/*/Run202*/ALCARECO instance=prod/global"],
     Ok [VStr name_A; VStr name_B]).
Proof.
  apply (get_datasets_flattens world_A pattern_A [] listing_A
           [ VDict [("dataset", VList [VDict [("name", VStr name_A)]])];
             VDict [("dataset", VList [VDict [("name", VStr name_B)]])] ]
           [[VStr name_A]; [VStr name_B]]).
  - vm_compute. reflexivity.
  - reflexivity.
  - reflexivity.
  - repeat constructor.
    + eexists _, _, _. split; [reflexivity|]. split; [reflexivity|].
      split; [reflexivity|]. repeat constructor. eexists. split; reflexivity.
    + eexists _, _, _. split; [reflexivity|]. split; [reflexivity|].
      split; [reflexivity|]. repeat constructor. eexists. split; reflexivity.
Defined.

Lemma empty_result_not_walked_witness :
  get_datasets world_empty pattern_A
  = (["Executing query: dataset dataset=/*/Run202*/ALCARECO instance=prod/global";
      "No data found for pattern /*/Run202*/ALCARECO"],
     Ok []).
Proof.
  apply (proj1 (empty_result_not_walked world_empty [] (VList []) eq_refl)
           pattern_A).
  vm_compute. reflexivity.
Defined.

Lemma dataset_without_metadata_skipped_witness :
  outcome (for_each (process_dataset world_N) [VStr name_A; VStr name_B] new_results)
  = outcome (for_each (process_dataset world_N) [VStr name_A] new_results).
Proof.
  apply (dataset_without_metadata_skipped world_N (VStr name_B) VNone (VInt 20)
           [VStr name_A] [] new_results).
  - vm_compute. reflexivity.
  - left. reflexivity.
Defined.

Lemma total_datasets_counts_witness :
  exists r,
    outcome (process_datasets world_X "PPS" [pattern_A]) = Ok r
    /\ total_datasets r = Z.of_nat (length (counted world_X [pattern_A])).
Proof.
  eexists. split; [vm_compute; reflexivity|].
  apply (total_datasets_counts world_X "PPS" [pattern_A]).
  vm_compute. reflexivity.
Defined.

Lemma count_by_year_counts_witness :
  exists r,
    outcome (process_datasets world_X "PPS" [pattern_A]) = Ok r
    /\ dd_count (count_by_year r) "2022"
       = Z.of_nat (length (filter (fun d => in_year "2022" d = true)
                             (counted world_X [pattern_A]))).
Proof.
  eexists. split; [vm_compute; reflexivity|].
  apply (count_by_year_counts world_X "PPS" [pattern_A]).
  vm_compute. reflexivity.
Defined.

Lemma year_maps_same_keys_witness :
  exists r,
    outcome (process_datasets world_X "PPS" [pattern_A]) = Ok r
    /\ (size_by_year r !! "2023" = None <-> count_by_year r !! "2023" = None).
Proof.
  eexists. split; [vm_compute; reflexivity|].
  apply (year_maps_same_keys world_X "PPS" [pattern_A]).
  vm_compute. reflexivity.
Defined.

Lemma world_X_int_metadata :
  Forall (int_metadata world_X) (counted world_X [pattern_A]).
Proof.
  assert (counted world_X [pattern_A] = [VStr name_A; VStr name_X]) as ->
    by (vm_compute; reflexivity).
  repeat constructor.
  - eexists. split; [vm_compute; reflexivity|]. eexists _, _. reflexivity.
  - eexists. split; [vm_compute; reflexivity|]. eexists _, _. reflexivity.
Defined.

Lemma totals_are_integer_sums_witness :
  exists r,
    outcome (process_datasets world_X "PPS" [pattern_A]) = Ok r
    /\ total_size r
       = Int (sum_list (map (fetched_size world_X) (counted world_X [pattern_A]))).
Proof.
  eexists. split; [vm_compute; reflexivity|].
  apply (totals_are_integer_sums world_X "PPS" [pattern_A]).
  - vm_compute. reflexivity.
  - exact world_X_int_metadata.
Defined.

Lemma size_by_year_is_integer_sum_witness :
  exists r,
    outcome (process_datasets world_X "PPS" [pattern_A]) = Ok r
    /\ dd_size (size_by_year r) "2022"
       = Int (sum_list (map (fetched_size world_X)
                          (filter (fun d => in_year "2022" d = true)
                             (counted world_X [pattern_A])))).
Proof.
  eexists. split; [vm_compute; reflexivity|].
  apply (size_by_year_is_integer_sum world_X "PPS" [pattern_A]).
  - vm_compute. reflexivity.
  - exact world_X_int_metadata.
Defined.

Lemma process_datasets_pattern_order_witness :
  outcome (process_datasets world_two "PPS" [pattern_B; pattern_A])
  = outcome (process_datasets world_two "PPS" [pattern_A; pattern_B]).
Proof.
  assert (exists r, outcome (process_datasets world_two "PPS" [pattern_A; pattern_B])
                    = Ok r) as [r H]
    by (eexists; vm_compute; reflexivity).
  rewrite H.
  apply (process_datasets_pattern_order world_two "PPS" [pattern_A; pattern_B]
           [pattern_B; pattern_A] r).
  - apply perm_swap.
  - exact H.
  - assert (counted world_two [pattern_A; pattern_B] = [VStr name_A; VStr name_B])
      as -> by (vm_compute; reflexivity).
    repeat constructor.
    + eexists. split; [vm_compute; reflexivity|]. eexists _, _. reflexivity.
    + eexists. split; [vm_compute; reflexivity|]. eexists _, _. reflexivity.
Defined.

Lemma world_two_int_metadata pattern name :
  counted world_two [pattern] = [VStr name] ->
  (exists entry, fetched world_two (VStr name) = Some entry /\ int_entry entry) ->
  Forall (int_metadata world_two) (counted world_two [pattern]).
Proof. intros -> H. constructor; [exact H|constructor]. Qed.

Lemma process_datasets_returns_witness :
  exists r,
    outcome (process_datasets world_X "PPS" [pattern_A]) = Ok r
    /\ total_datasets r = 2%Z
    /\ total_size r = Int 150
    /\ total_events r = Int 15.
Proof.
  destruct (proj2 (process_datasets_returns world_X "PPS" [pattern_A]))
    as (r & H & Hn & Hs & He).
  - apply (proj1 (process_datasets_returns world_X "PPS" [pattern_A])).
    eexists. vm_compute. reflexivity.
  - exact world_X_int_metadata.
  - exists r. split; [exact H|].
    rewrite Hn, Hs, He. vm_compute. auto.
Defined.

Lemma process_datasets_concatenation_witness :
  exists r,
    outcome (process_datasets world_two "PPS" ([pattern_A] ++ [pattern_B])) = Ok r
    /\ total_datasets r = 2%Z
    /\ total_size r = Int 300
    /\ total_events r = Int 30.
Proof.
  destruct (process_datasets_concatenation world_two "TkAl" "BRIL" "PPS"
              [pattern_A] [pattern_B]
              (counted_in new_results (Some "2022") (Int 100) (Int 10))
              (counted_in new_results (Some "2023") (Int 200) (Int 20)))
    as (r & s1 & s2 & e1 & e2 & H & Htotal & Hs1 & Hs2 & Hs & He1 & He2 & He & _).
  - vm_compute. reflexivity.
  - vm_compute. reflexivity.
  - apply (world_two_int_metadata pattern_A name_A); [vm_compute; reflexivity|].
    eexists. split; [vm_compute; reflexivity|]. eexists _, _. reflexivity.
  - apply (world_two_int_metadata pattern_B name_B); [vm_compute; reflexivity|].
    eexists. split; [vm_compute; reflexivity|]. eexists _, _. reflexivity.
  - exists r. split; [exact H|]. split; [exact Htotal|].
    injection Hs1 as <-. injection Hs2 as <-.
    injection He1 as <-. injection He2 as <-.
    split; [exact Hs|exact He].
Defined.

Lemma main_failure_reports_nothing_witness :
  (exists e, outcome (main world_absent) = Raise e)
  /\ Forall (fun line => is_header line = false) (printed (main world_absent)).
Proof.
  apply (main_failure_reports_nothing world_absent).
  apply Exists_cons_hd. exists OSError. vm_compute. reflexivity.
Defined.

Lemma main_reports_groups_in_order_witness :
  List.filter is_header (printed (main world_refused))
  = map (fun entry => (newline ++ "Group: " ++ entry.1)%string) group_patterns.
Proof.
  apply (main_reports_groups_in_order world_refused).
  vm_compute. reflexivity.
Defined.

